(** * Altu health dashboard: metrics aggregator and insight extractor

    A shallow embedding of [src/utils/data.js] ([computeMetrics]) and of the
    exact-answer helpers of [src/utils/llm.js] ([isWeekend], [extractAppName],
    [computeAppWeekdayWeekendStats], [computeTrendStats],
    [computeAllAppTotals], [extractComputedInsights]).

    Conventions of the embedding.
    - The numeric fields of the input records are integers ([Z]).  Derived
      JavaScript numbers are exact rationals ([Q]): the IEEE-754 rounding of
      doubles is idealised away.  Every division the source performs has a
      divisor the source itself guards to be non-zero, so [Qdiv] is never
      used at [0] on a path the code takes.
    - Arrays are lists.  [Array.prototype.sort] is the stable sort the
      language requires; it is in place, which matters only for the frame
      property of [computeMetrics] and is modelled there with a store.
    - A plain object used as a dictionary is an association list in property
      creation order, and [Object.entries] lists array-index keys first, in
      ascending numeric order, then the other keys in creation order.  Keys
      that name a member of [Object.prototype] are outside the model.
    - [Date] and its local-time [getDay] belong to the host: they are
      parameters ([Date_time], [Date_getDay]) of the sections below, and
      date strings are assumed to parse.  [localeCompare] is used by the
      source on date strings only and is code-unit order. *)

From Stdlib Require Import ZArith QArith Qround Qminmax List String Ascii Bool Lia.
From Stdlib Require Import Sorted Permutation DecimalString Lqa.
Import ListNotations.

Local Open Scope Z_scope.

(* ------------------------------------------------------------------ *)
(** ** Host numbers *)

(** [Math.round]: nearest integer, halves towards plus infinity. *)
Definition Math_round (x : Q) : Z := Qfloor (x + (1 # 2)).

(** [Math.min(c, x)] on finite numbers. *)
Definition Math_min (c x : Q) : Q := Qmin c x.

(** The values a JavaScript division can produce once the divisor may be
    zero.  The source never divides by zero; this type is used to read the
    specification's formulas in the host arithmetic. *)
Inductive Number : Type :=
| Finite (q : Q)
| PosInfinity
| NegInfinity
| NaN.

Definition Number_div (a b : Q) : Number :=
  if Qeq_bool b 0 then
    (if Qeq_bool a 0 then NaN
     else if Qle_bool 0 a then PosInfinity else NegInfinity)
  else Finite (a / b).



(** [x || 1] on a number: [0] is falsy. *)
Definition or_one (x : Z) : Z := if x =? 0 then 1 else x.

(** [x || 0] where [x] is a property read: [undefined] and [0] are falsy. *)
Definition or_zero (x : option Z) : Z :=
  match x with
  | Some v => v
  | None => 0
  end.

(* ------------------------------------------------------------------ *)
(** ** Host arrays *)

Module Arr.
Section Ops.
Context {A : Type}.

(** [arr.reduce((sum, d) => sum + f(d), 0)] *)
Definition sumBy (f : A -> Z) (l : list A) : Z :=
  fold_left (fun sum d => sum + f d) l 0.

(** Relative index of [slice]: negative counts from the end, and the
    result is clamped to [0, len]. *)
Definition relIndex (len i : Z) : Z :=
  if i <? 0 then Z.max (len + i) 0 else Z.min i len.

(** [arr.slice(start, end)]; [end] may be omitted. *)
Definition slice (l : list A) (start : Z) (end_ : option Z) : list A :=
  let len := Z.of_nat (List.length l) in
  let k := relIndex len start in
  let final := match end_ with
               | None => len
               | Some e => relIndex len e
               end in
  firstn (Z.to_nat (final - k)) (skipn (Z.to_nat k) l).

(** One step of the stable sort: [x] stood before every element of [l]
    and stays before those it does not exceed. *)
Fixpoint insert (cmp : A -> A -> Z) (x : A) (l : list A) : list A :=
  match l with
  | [] => [x]
  | y :: l' => if cmp x y <=? 0 then x :: y :: l' else y :: insert cmp x l'
  end.

(** [arr.sort(cmp)] as a value: [cmp a b < 0] puts [a] first, [> 0] puts
    [b] first, [= 0] keeps the original order. *)
Definition sort (cmp : A -> A -> Z) (l : list A) : list A :=
  fold_right (insert cmp) [] l.

(** [arr.find(p)] *)
Definition find (p : A -> bool) (l : list A) : option A := List.find p l.

(** [arr.some(p)] *)
Definition some (p : A -> bool) (l : list A) : bool := existsb p l.

(** [arr[arr.length - 1]] *)
Definition lastOf (l : list A) : option A :=
  nth_error l (List.length l - 1).
End Ops.

(** [arr.includes(s)] on an array of strings *)
Definition includes (l : list string) (s : string) : bool :=
  existsb (String.eqb s) l.

(** [[...new Set(arr)]]: first occurrences, in order. *)
Fixpoint unique_from (seen : list string) (l : list string) : list string :=
  match l with
  | [] => []
  | s :: l' =>
      if includes seen s then unique_from seen l'
      else s :: unique_from (seen ++ [s]) l'
  end.

Definition unique (l : list string) : list string := unique_from [] l.
End Arr.

(* ------------------------------------------------------------------ *)
(** ** Host strings *)

Module Str.
Definition lower_ascii (c : ascii) : ascii :=
  let n := nat_of_ascii c in
  if andb (Nat.leb 65 n) (Nat.leb n 90) then ascii_of_nat (n + 32) else c.

(** [s.toLowerCase()], on the ASCII letters. *)
Fixpoint toLowerCase (s : string) : string :=
  match s with
  | EmptyString => EmptyString
  | String c s' => String (lower_ascii c) (toLowerCase s')
  end.

(** [s.includes(t)]: [t] occurs in [s]. *)
Fixpoint includes (s t : string) : bool :=
  orb (String.prefix t s)
      (match s with
       | EmptyString => false
       | String _ s' => includes s' t
       end).

(** [a.localeCompare(b)] as the source uses it, on date strings. *)
Definition localeCompare (a b : string) : Z :=
  match String.compare a b with
  | Lt => -1
  | Eq => 0
  | Gt => 1
  end.
End Str.

(* ------------------------------------------------------------------ *)
(** ** Host objects used as dictionaries *)

Module Obj.
(** Own properties, in creation order. *)
Definition t := list (string * Z).

Definition empty : t := [].

(** [o[k]] *)
Fixpoint get (o : t) (k : string) : option Z :=
  match o with
  | [] => None
  | (k', v) :: o' => if String.eqb k k' then Some v else get o' k
  end.

(** [o[k] = v]: an existing property keeps its place, a new one is
    created last. *)
Fixpoint set (o : t) (k : string) (v : Z) : t :=
  match o with
  | [] => [(k, v)]
  | (k', v') :: o' =>
      if String.eqb k k' then (k', v) :: o' else (k', v') :: set o' k v
  end.

Definition digit (c : ascii) : option Z :=
  let n := nat_of_ascii c in
  if andb (Nat.leb 48 n) (Nat.leb n 57) then Some (Z.of_nat (n - 48)) else None.

Fixpoint digits (acc : Z) (s : string) : option Z :=
  match s with
  | EmptyString => Some acc
  | String c s' =>
      match digit c with
      | Some d => digits (10 * acc + d) s'
      | None => None
      end
  end.

(** The array index a key denotes, if any: a canonical decimal numeral
    below [2^32 - 1]. *)
Definition arrayIndex (k : string) : option Z :=
  match k with
  | EmptyString => None
  | String c rest =>
      match digit c with
      | None => None
      | Some d =>
          if andb (d =? 0) (negb (String.eqb rest EmptyString)) then None
          else
            match digits d rest with
            | Some n => if n <? 4294967295 then Some n else None
            | None => None
            end
      end
  end.

Definition isIndex (e : string * Z) : bool :=
  match arrayIndex (fst e) with
  | Some _ => true
  | None => false
  end.

Definition indexOrder (a b : string * Z) : Z :=
  or_zero (arrayIndex (fst a)) - or_zero (arrayIndex (fst b)).

(** [Object.entries(o)]: array-index keys in ascending numeric order,
    then the string keys in creation order. *)
Definition entries (o : t) : list (string * Z) :=
  Arr.sort indexOrder (filter isIndex o) ++ filter (fun e => negb (isIndex e)) o.

(** The names every object inherits from [Object.prototype].  Reading one
    of them on a fresh object does not give [undefined]; such keys are
    outside this model of dictionaries. *)
Definition inherited : list string :=
  [ "constructor"; "hasOwnProperty"; "isPrototypeOf"; "propertyIsEnumerable";
    "toLocaleString"; "toString"; "valueOf"; "__proto__";
    "__defineGetter__"; "__defineSetter__"; "__lookupGetter__";
    "__lookupSetter__" ]%string.

(** [o[k] = (o[k] || 0) + n] *)
Definition bump (o : t) (k : string) (n : Z) : t :=
  set o k (or_zero (get o k) + n).

(** [arr.forEach(item => { o[key(item)] = (o[key(item)] || 0) + val(item) })]
    from the empty object. *)
Definition tally {A : Type} (key : A -> string) (val : A -> Z) (l : list A) : t :=
  fold_left (fun o item => bump o (key item) (val item)) l empty.
End Obj.

(* ------------------------------------------------------------------ *)
(** ** Data model: the records the loaders produce *)

Module Health.
Record t : Type := mk {
  date : string;
  steps : Z;
  sleep : Z;
  energy : Z;
  workout : Z
}.
End Health.

Module Screen.
Record t : Type := mk {
  date : string;
  app : string;
  minutes : Z;
  category : string
}.
End Screen.

(** ** Data model: the derived [Metrics] *)

Record HealthSummary : Type := {
  avgSteps : Z;
  avgSleep : Z;
  avgEnergy : Z;
  avgWorkout : Z;
  workoutDays : Z;
  totalDays : option Z      (* absent from the all-zero shape *)
}.

Record ScreenSummary : Type := {
  topApps : list (string * Z);        (* { app, minutes } *)
  topCategories : list (string * Z);  (* { category, minutes } *)
  dailyTotals : list (string * Z);    (* { date, total } *)
  avgDaily : Z
}.

Record Wellness : Type := {
  score : Z;
  stepsScore : Q;
  sleepScore : Q;
  workoutScore : Q;
  screenTimeScore : Q;
  weeklyScore : Z;
  weeklyChange : Z
}.

Module Habit.
Record t : Type := mk { workout : Z; sleep : Z; steps : Z }.
End Habit.

Record Streaks : Type := {
  current : Habit.t;
  best : Habit.t
}.

Record Metrics : Type := {
  health : HealthSummary;
  screenTime : ScreenSummary;
  wellness : Wellness;
  streaks : Streaks
}.

(* ------------------------------------------------------------------ *)
(** ** Arrays as shared mutable objects *)

Module Store.
Inductive cell : Type :=
| HealthArr (l : list Health.t)
| ScreenArr (l : list Screen.t).

(** The arrays alive at some point; a reference is a position. *)
Definition t := list cell.
Definition ref := nat.

Definition healthAt (st : t) (r : ref) : list Health.t :=
  match nth_error st r with
  | Some (HealthArr l) => l
  | _ => []
  end.

Definition screenAt (st : t) (r : ref) : list Screen.t :=
  match nth_error st r with
  | Some (ScreenArr l) => l
  | _ => []
  end.

Definition alloc (st : t) (c : cell) : ref * t := (List.length st, st ++ [c]).

Fixpoint write (st : t) (r : ref) (c : cell) : t :=
  match st, r with
  | [], _ => []
  | _ :: st', O => c :: st'
  | c' :: st', S r' => c' :: write st' r' c
  end.

(** [[...arr]]: a new array with the same elements. *)
Definition spread (st : t) (r : ref) : ref * t :=
  alloc st (HealthArr (healthAt st r)).

(** [arr.sort(cmp)]: the array at [r] is rearranged in place. *)
Definition sortAt (cmp : Health.t -> Health.t -> Z) (st : t) (r : ref) : t :=
  write st r (HealthArr (Arr.sort cmp (healthAt st r))).
End Store.

(* ------------------------------------------------------------------ *)
(** ** [computeMetrics] (src/utils/data.js) *)

(** [Math.round(total / count)] *)
Definition roundedMean (total : Z) (count : nat) : Z :=
  Math_round (inject_Z total / inject_Z (Z.of_nat count)).

(** [Math.round(arr.reduce((sum, d) => sum + f(d), 0) / arr.length)] *)
Definition average {A : Type} (f : A -> Z) (l : list A) : Z :=
  roundedMean (Arr.sumBy f l) (List.length l).

(** [arr.length > 0 ? average : 0] *)
Definition averageOrZero {A : Type} (f : A -> Z) (l : list A) : Z :=
  match l with
  | [] => 0
  | _ :: _ => average f l
  end.

Definition idealSteps : Z := 10000.
Definition idealSleep : Z := 480.
Definition idealWorkout : Z := 30.
Definition idealScreenTime : Z := 240.

Definition streakWorkoutMin : Z := 15.
Definition streakSleepMin : Z := 420.
Definition streakStepsMin : Z := 8000.

(** [Math.min(100, (avg / ideal) * 100)] *)
Definition subScore (avg ideal : Z) : Q :=
  Math_min 100 (inject_Z avg / inject_Z ideal * 100).

(** [Math.min(100, (idealScreenTime / (avgDaily || 1)) * 100)] *)
Definition inverseSubScore (avgDaily : Z) : Q :=
  Math_min 100 (inject_Z idealScreenTime / inject_Z (or_one avgDaily) * 100).

(** The weighted sum, rounded. *)
Definition weighted (stepsS sleepS workoutS screenS : Q) : Z :=
  Math_round (stepsS * 0.30 + sleepS * 0.30 + workoutS * 0.25 + screenS * 0.15).

(** [b[1] - a[1]]: descending by value. *)
Definition byValueDesc (a b : string * Z) : Z := snd b - snd a.

(** [a.date.localeCompare(b.date)] on [{ date, total }]. *)
Definition byDateString (a b : string * Z) : Z :=
  Str.localeCompare (fst a) (fst b).

(** [for (const day of days) { if (ok(day)) n++; else break }] *)
Fixpoint streakLoop (ok : Health.t -> bool) (n : Z) (days : list Health.t) : Z :=
  match days with
  | [] => n
  | day :: rest => if ok day then streakLoop ok (n + 1) rest else n
  end.

(** One iteration of the best-streak loop for one habit; the state is
    [(best, running)]. *)
Definition bestStep (ok : Health.t -> bool) (st : Z * Z) (day : Health.t) : Z * Z :=
  if ok day then (Z.max (fst st) (snd st + 1), snd st + 1) else (fst st, 0).

Definition bestLoop (ok : Health.t -> bool) (days : list Health.t) : Z :=
  fst (fold_left (bestStep ok) days (0, 0)).

Definition workoutOk (day : Health.t) : bool := streakWorkoutMin <=? Health.workout day.
Definition sleepOk (day : Health.t) : bool := streakSleepMin <=? Health.sleep day.
Definition stepsOk (day : Health.t) : bool := streakStepsMin <=? Health.steps day.

(** The value returned when either array is empty. *)
Definition zeroMetrics : Metrics :=
  {| health := {| avgSteps := 0; avgSleep := 0; avgEnergy := 0; avgWorkout := 0;
                  workoutDays := 0; totalDays := None |};
     screenTime := {| topApps := []; topCategories := []; dailyTotals := [];
                      avgDaily := 0 |};
     wellness := {| score := 0; stepsScore := 0; sleepScore := 0; workoutScore := 0;
                    screenTimeScore := 0; weeklyScore := 0; weeklyChange := 0 |};
     streaks := {| current := Habit.mk 0 0 0; best := Habit.mk 0 0 0 |} |}.

Section Aggregator.
(** [new Date(s).getTime()], in milliseconds. *)
Variable Date_time : string -> Z.

(** [(a, b) => new Date(b.date) - new Date(a.date)] *)
Definition newestFirst (a b : Health.t) : Z :=
  Date_time (Health.date b) - Date_time (Health.date a).

(** [(a, b) => new Date(a.date) - new Date(b.date)] *)
Definition oldestFirst (a b : Health.t) : Z :=
  Date_time (Health.date a) - Date_time (Health.date b).

(** Average daily screen time over the records dated in [dates];
    [0] when no such record exists. *)
Definition windowScreenTime (dates : list string) (screenTimeData : list Screen.t) : Z :=
  let windowData := filter (fun item => Arr.includes dates (Screen.date item)) screenTimeData in
  let totals := Obj.tally Screen.date Screen.minutes windowData in
  averageOrZero snd (Obj.entries totals).

(** The body of [computeMetrics] past its guard, given the two sorted
    copies [sortedHealthData] and [sortedByDate] of the health array. *)
Definition metricsFrom (healthData : list Health.t) (screenTimeData : list Screen.t)
    (sortedHealthData sortedByDate : list Health.t) : Metrics :=
  (* health metrics *)
  let totalDays := List.length healthData in
  let avgSteps := average Health.steps healthData in
  let avgSleep := average Health.sleep healthData in
  let avgEnergy := average Health.energy healthData in
  let avgWorkout := average Health.workout healthData in
  let workoutDays :=
    Z.of_nat (List.length (filter (fun d => 0 <? Health.workout d) healthData)) in
  (* screen time metrics *)
  let appTotals := Obj.tally Screen.app Screen.minutes screenTimeData in
  let categoryTotals := Obj.tally Screen.category Screen.minutes screenTimeData in
  let dailyTotals := Obj.tally Screen.date Screen.minutes screenTimeData in
  let topApps :=
    Arr.slice (Arr.sort byValueDesc (Obj.entries appTotals)) 0 (Some 10) in
  let topCategories := Arr.sort byValueDesc (Obj.entries categoryTotals) in
  let dailyTotalsArray := Arr.sort byDateString (Obj.entries dailyTotals) in
  let avgDaily := average snd dailyTotalsArray in
  (* wellness score *)
  let stepsScore := subScore avgSteps idealSteps in
  let sleepScore := subScore avgSleep idealSleep in
  let workoutScore := subScore avgWorkout idealWorkout in
  let screenTimeScore := inverseSubScore avgDaily in
  let wellnessScore := weighted stepsScore sleepScore workoutScore screenTimeScore in
  (* last 7 days against the whole window; the previous-week averages of
     the source are computed and never read *)
  let last7Days := Arr.slice healthData (-7) None in
  let last7StepsScore := subScore (averageOrZero Health.steps last7Days) idealSteps in
  let last7SleepScore := subScore (averageOrZero Health.sleep last7Days) idealSleep in
  let last7WorkoutScore :=
    subScore (averageOrZero Health.workout last7Days) idealWorkout in
  let last7Dates := map Health.date last7Days in
  let last7AvgScreenTime := windowScreenTime last7Dates screenTimeData in
  let last7ScreenTimeScore := inverseSubScore last7AvgScreenTime in
  let last7WellnessScore :=
    weighted last7StepsScore last7SleepScore last7WorkoutScore last7ScreenTimeScore in
  let weeklyChange := last7WellnessScore - wellnessScore in
  (* habit streaks *)
  {| health := {| avgSteps := avgSteps; avgSleep := avgSleep;
                  avgEnergy := avgEnergy; avgWorkout := avgWorkout;
                  workoutDays := workoutDays;
                  totalDays := Some (Z.of_nat totalDays) |};
     screenTime := {| topApps := topApps; topCategories := topCategories;
                      dailyTotals := dailyTotalsArray; avgDaily := avgDaily |};
     wellness := {| score := wellnessScore; stepsScore := stepsScore;
                    sleepScore := sleepScore; workoutScore := workoutScore;
                    screenTimeScore := screenTimeScore;
                    weeklyScore := last7WellnessScore;
                    weeklyChange := weeklyChange |};
     streaks := {| current := Habit.mk (streakLoop workoutOk 0 sortedHealthData)
                                       (streakLoop sleepOk 0 sortedHealthData)
                                       (streakLoop stepsOk 0 sortedHealthData);
                   best := Habit.mk (bestLoop workoutOk sortedByDate)
                                    (bestLoop sleepOk sortedByDate)
                                    (bestLoop stepsOk sortedByDate) |} |}.

(** [computeMetrics] as a function of the contents of its two arrays. *)
Definition computeMetrics (healthData : list Health.t) (screenTimeData : list Screen.t)
  : Metrics :=
  match healthData, screenTimeData with
  | [], _ | _, [] => zeroMetrics
  | _ :: _, _ :: _ =>
      metricsFrom healthData screenTimeData
                  (Arr.sort newestFirst healthData)
                  (Arr.sort oldestFirst healthData)
  end.

(** [computeMetrics] on array references: [[...healthData]] allocates a
    copy and [.sort] rearranges the array it is called on. *)
Definition computeMetrics_st (healthRef screenRef : Store.ref) (st : Store.t)
  : Metrics * Store.t :=
  let healthData := Store.healthAt st healthRef in
  let screenTimeData := Store.screenAt st screenRef in
  match healthData, screenTimeData with
  | [], _ | _, [] => (zeroMetrics, st)
  | _ :: _, _ :: _ =>
      let '(sortedHealthData, st1) := Store.spread st healthRef in
      let st2 := Store.sortAt newestFirst st1 sortedHealthData in
      let '(sortedByDate, st3) := Store.spread st2 healthRef in
      let st4 := Store.sortAt oldestFirst st3 sortedByDate in
      (metricsFrom healthData screenTimeData
                   (Store.healthAt st4 sortedHealthData)
                   (Store.healthAt st4 sortedByDate),
       st4)
  end.
End Aggregator.

(* ------------------------------------------------------------------ *)
(** ** The exact-answer helpers (src/utils/llm.js) *)

(** The health fields a trend can be asked about: the [metric] of
    [d[metric]]. *)
Inductive HealthField : Type := F_steps | F_sleep | F_workout | F_energy.

Definition field (metric : HealthField) (d : Health.t) : Z :=
  match metric with
  | F_steps => Health.steps d
  | F_sleep => Health.sleep d
  | F_workout => Health.workout d
  | F_energy => Health.energy d
  end.

Record Bucket : Type := {
  days : Z;
  totalMinutes : Z;
  avgMinutes : Z;
  dailyBreakdown : list (string * Z)   (* { date, minutes } *)
}.

Record WeekdayWeekend : Type := {
  appName : string;
  weekday : Bucket;
  weekend : Bucket
}.

Record TrendStats : Type := {
  recent30Days : Z;
  previous30Days : Z;
  change : Z;
  percentChange : Z;
  trend : string;
  dailyValues : list (string * Z)      (* { date, value } *)
}.

Record ExerciseSleep : Type := {
  avgSleepWithWorkout : Z;
  avgSleepNoWorkout : Z;
  difference : Z;
  es_workoutDays : Z;
  es_noWorkoutDays : Z
}.

Module Insights.
(** The sparse result: [None] is an absent key.  A present key can hold
    [undefined] (no app at all) or [null] (no previous window). *)
Record t : Type := mk {
  mostUsedApp : option (option (string * Z));
  topApps : option (list (string * Z));
  leastUsedApp : option (option (string * Z));
  bottomApps : option (list (string * Z));
  appWeekdayWeekend : option WeekdayWeekend;
  stepsTrend : option (option TrendStats);
  sleepTrend : option (option TrendStats);
  workoutTrend : option (option TrendStats);
  exerciseSleepRelationship : option ExerciseSleep
}.
End Insights.

(** The alias table of [extractAppName], in the order it is written. *)
Definition appVariations : list (string * list string) :=
  [ ("twitter", ["twitter"; "x app"; "x"]);
    ("instagram", ["instagram"; "ig"]);
    ("facebook", ["facebook"; "fb"]);
    ("youtube", ["youtube"; "yt"]);
    ("tiktok", ["tiktok"; "tt"]);
    ("snapchat", ["snapchat"; "snap"]);
    ("whatsapp", ["whatsapp"; "wa"]);
    ("messenger", ["messenger"; "fb messenger"]) ]%string.

(** A string in a condition: only the empty string is falsy. *)
Definition truthy (s : string) : bool := negb (String.eqb s EmptyString).

(** The second loop of [extractAppName]. *)
Fixpoint matchVariation (questionLower : string) (allApps : list string)
    (table : list (string * list string)) : option string :=
  match table with
  | [] => None
  | (key, variations) :: table' =>
      if Arr.some (fun v => Str.includes questionLower v) variations then
        match Arr.find (fun a => orb (Str.includes (Str.toLowerCase a) key)
                                     (Str.includes key (Str.toLowerCase a))) allApps with
        | Some matchedApp =>
            if truthy matchedApp then Some matchedApp
            else matchVariation questionLower allApps table'
        | None => matchVariation questionLower allApps table'
        end
      else matchVariation questionLower allApps table'
  end.

Definition extractAppName (question : string) (screenTimeData : list Screen.t)
  : option string :=
  let questionLower := Str.toLowerCase question in
  let allApps := Arr.unique (map Screen.app screenTimeData) in
  match Arr.find (fun a => Str.includes questionLower (Str.toLowerCase a)) allApps with
  | Some a => Some a
  | None => matchVariation questionLower allApps appVariations
  end.

(** [(a, b) => b.minutes - a.minutes] on [{ app, minutes }]. *)
Definition byMinutesDesc (a b : string * Z) : Z := snd b - snd a.

Definition computeAllAppTotals (screenTimeData : list Screen.t) : list (string * Z) :=
  let appTotals := Obj.tally Screen.app Screen.minutes screenTimeData in
  Arr.sort byMinutesDesc (map (fun e => (fst e, snd e)) (Obj.entries appTotals)).

Definition trendLabel (change : Z) : string :=
  if 0 <? change then "increasing"
  else if change <? 0 then "decreasing"
  else "stable".

(** [null] is [None]. *)
Definition computeTrendStats (healthData : list Health.t) (metric : HealthField)
  : option TrendStats :=
  let recent30 := Arr.slice healthData (-30) None in
  let previous30 := Arr.slice healthData (-60) (Some (-30)) in
  match previous30 with
  | [] => None
  | _ :: _ =>
      let recentAvg := average (field metric) recent30 in
      let previousAvg := average (field metric) previous30 in
      let change := recentAvg - previousAvg in
      let percentChange :=
        if 0 <? previousAvg
        then Math_round (inject_Z change / inject_Z previousAvg * 100)
        else 0 in
      Some {| recent30Days := recentAvg;
              previous30Days := previousAvg;
              change := change;
              percentChange := percentChange;
              trend := trendLabel change;
              dailyValues := map (fun d => (Health.date d, field metric d)) recent30 |}
  end.

Definition exerciseSleep (healthData : list Health.t) : ExerciseSleep :=
  let recent30 := Arr.slice healthData (-30) None in
  let workoutDays := filter (fun d => 0 <? Health.workout d) recent30 in
  let noWorkoutDays := filter (fun d => Health.workout d =? 0) recent30 in
  let withW := averageOrZero Health.sleep workoutDays in
  let noW := averageOrZero Health.sleep noWorkoutDays in
  {| avgSleepWithWorkout := withW;
     avgSleepNoWorkout := noW;
     difference := withW - noW;
     es_workoutDays := Z.of_nat (List.length workoutDays);
     es_noWorkoutDays := Z.of_nat (List.length noWorkoutDays) |}.

Section Extractor.
(** [new Date(s).getDay()]: [0] is Sunday, [6] is Saturday, in the
    host's time zone. *)
Variable Date_getDay : string -> Z.

Definition isWeekend (dateStr : string) : bool :=
  let day := Date_getDay dateStr in
  orb (day =? 0) (day =? 6).

(** The [forEach] that pushes each record of the app to one of the two
    arrays; the state is [(weekdayData, weekendData)]. *)
Definition pushByDay (st : list (string * Z) * list (string * Z)) (item : Screen.t)
  : list (string * Z) * list (string * Z) :=
  if isWeekend (Screen.date item)
  then (fst st, snd st ++ [(Screen.date item, Screen.minutes item)])
  else (fst st ++ [(Screen.date item, Screen.minutes item)], snd st).

Definition bucketOf (data : list (string * Z)) : Bucket :=
  {| days := Z.of_nat (List.length data);
     totalMinutes := Arr.sumBy snd data;
     avgMinutes := averageOrZero snd data;
     dailyBreakdown := Arr.sort byDateString data |}.

Definition computeAppWeekdayWeekendStats (name : string) (screenTimeData : list Screen.t)
  : WeekdayWeekend :=
  let appData :=
    filter (fun item => String.eqb (Str.toLowerCase (Screen.app item))
                                   (Str.toLowerCase name)) screenTimeData in
  let '(weekdayData, weekendData) := fold_left pushByDay appData ([], []) in
  {| appName := name;
     weekday := bucketOf weekdayData;
     weekend := bucketOf weekendData |}.

Definition extractComputedInsights (question : string) (metrics : Metrics)
    (healthData : list Health.t) (screenTimeData : list Screen.t) : Insights.t :=
  let q := Str.toLowerCase question in
  let ranking := andb (orb (Str.includes q "most") (Str.includes q "least")) (orb (Str.includes q "app") (Str.includes q "use")) in
  let allApps := computeAllAppTotals screenTimeData in
  let name := extractAppName question screenTimeData in
  let trendAsked :=
    orb (orb (Str.includes q "trend") (Str.includes q "change")) (orb (Str.includes q "increase") (Str.includes q "decrease")) in
  {| Insights.mostUsedApp :=
       if andb ranking (Str.includes q "most") then Some (nth_error allApps 0) else None;
     Insights.topApps :=
       if andb ranking (Str.includes q "most") then Some (Arr.slice allApps 0 (Some 5)) else None;
     Insights.leastUsedApp :=
       if andb ranking (Str.includes q "least") then Some (Arr.lastOf allApps) else None;
     Insights.bottomApps :=
       if andb ranking (Str.includes q "least") then Some (rev (Arr.slice allApps (-5) None))
       else None;
     Insights.appWeekdayWeekend :=
       match name with
       | Some a =>
           if andb (truthy a)
                   (orb (orb (Str.includes q "weekday") (Str.includes q "weekend"))
                        (orb (Str.includes q "week day") (Str.includes q "week end")))
           then Some (computeAppWeekdayWeekendStats a screenTimeData)
           else None
       | None => None
       end;
     Insights.stepsTrend :=
       if andb trendAsked (Str.includes q "step")
       then Some (computeTrendStats healthData F_steps) else None;
     Insights.sleepTrend :=
       if andb trendAsked (Str.includes q "sleep")
       then Some (computeTrendStats healthData F_sleep) else None;
     Insights.workoutTrend :=
       if andb trendAsked (orb (Str.includes q "workout") (Str.includes q "exercise"))
       then Some (computeTrendStats healthData F_workout) else None;
     Insights.exerciseSleepRelationship :=
       if andb (orb (Str.includes q "exercise") (Str.includes q "workout")) (Str.includes q "sleep")
       then Some (exerciseSleep healthData) else None |}.
End Extractor.

(* ------------------------------------------------------------------ *)
(** ** A host instance: ISO calendar dates read in UTC

    The examples below run the code with [new Date("YYYY-MM-DD")] read as
    midnight UTC on a host whose local time is UTC. *)

Module Iso.
Definition num (s : string) : Z := or_zero (Obj.digits 0 s).

(** Days from 1970-01-01 to the civil date [y-m-d]. *)
Definition daysFromCivil (y m d : Z) : Z :=
  let y' := if m <=? 2 then y - 1 else y in
  let era := y' / 400 in
  let yoe := y' - era * 400 in
  let mp := (m + 9) mod 12 in
  let doy := (153 * mp + 2) / 5 + d - 1 in
  let doe := yoe * 365 + yoe / 4 - yoe / 100 + doy in
  era * 146097 + doe - 719468.

Definition days (s : string) : Z :=
  daysFromCivil (num (substring 0 4 s)) (num (substring 5 2 s)) (num (substring 8 2 s)).

Definition time (s : string) : Z := days s * 86400000.

(** 1970-01-01 was a Thursday. *)
Definition getDay (s : string) : Z := (days s + 4) mod 7.
End Iso.

(* ------------------------------------------------------------------ *)
(** ** Vocabulary of the specification *)

Section Windows_def.
Context {A : Type}.

(** The last [n] elements: what the prose calls the trailing window. *)
Definition lastN (n : nat) (l : list A) : list A :=
  skipn (List.length l - n) l.

(** Everything before the last [n] elements. *)
Definition dropLastN (n : nat) (l : list A) : list A :=
  firstn (List.length l - n) l.
End Windows_def.

(** The all-zero shape, spelled out field by field. *)
Definition allZero (m : Metrics) : Prop :=
  avgSteps (health m) = 0 /\ avgSleep (health m) = 0 /\
  avgEnergy (health m) = 0 /\ avgWorkout (health m) = 0 /\
  workoutDays (health m) = 0 /\
  topApps (screenTime m) = [] /\ topCategories (screenTime m) = [] /\
  dailyTotals (screenTime m) = [] /\ avgDaily (screenTime m) = 0 /\
  score (wellness m) = 0 /\
  stepsScore (wellness m) = 0%Q /\ sleepScore (wellness m) = 0%Q /\
  workoutScore (wellness m) = 0%Q /\ screenTimeScore (wellness m) = 0%Q /\
  weeklyScore (wellness m) = 0 /\ weeklyChange (wellness m) = 0 /\
  current (streaks m) = Habit.mk 0 0 0 /\ best (streaks m) = Habit.mk 0 0 0.

(** *** Streaks *)

(** [run] is a block of consecutive days of [l], all of them qualifying. *)
Definition isRun (ok : Health.t -> bool) (l run : list Health.t) : Prop :=
  (exists pre post, l = pre ++ run ++ post) /\ forallb ok run = true.

(** [n] is the maximum length of a run of consecutive qualifying days. *)
Definition longestRun (ok : Health.t -> bool) (l : list Health.t) (n : Z) : Prop :=
  (exists run, isRun ok l run /\ Z.of_nat (List.length run) = n) /\
  (forall run, isRun ok l run -> Z.of_nat (List.length run) <= n).

(** [n] counts the qualifying days at the end of [l], backward from the
    last record and stopping at the first failing day. *)
Definition trailingRun (ok : Health.t -> bool) (l : list Health.t) (n : Z) : Prop :=
  exists pre run,
    l = pre ++ run /\ forallb ok run = true /\ Z.of_nat (List.length run) = n /\
    (pre = [] \/ exists pre' d, pre = pre' ++ [d] /\ ok d = false).

(** The records are in strictly increasing date order. *)
Definition chronological (Date_time : string -> Z) (l : list Health.t) : Prop :=
  StronglySorted
    (fun a b => Date_time (Health.date a) < Date_time (Health.date b)) l.

(** One record per instant: the data model's unique dates. *)
Definition distinctDates (Date_time : string -> Z) (l : list Health.t) : Prop :=
  NoDup (map (fun d => Date_time (Health.date d)) l).

(** Thirty-one days: an idle one, then thirty active ones. *)
Definition trendExample : list Health.t :=
  Health.mk "2024-01-01" 0 0 0 0
  :: List.repeat (Health.mk "2024-02-01" 9000 450 300 20) 30.

(** The thresholds of the habit streaks, as the specification gives them. *)
Definition qualifiesWorkout (d : Health.t) : bool := 15 <=? Health.workout d.
Definition qualifiesSleep (d : Health.t) : bool := 420 <=? Health.sleep d.
Definition qualifiesSteps (d : Health.t) : bool := 8000 <=? Health.steps d.

(** What the specification says of the streak counters of
    [computeMetrics h s]: the general description and its worked example. *)
Definition streaksAsDescribed (Date_time : string -> Z)
    (h : list Health.t) (s : list Screen.t) : Prop :=
  let st := streaks (computeMetrics Date_time h s) in
  (trailingRun qualifiesWorkout h (Habit.workout (current st)) /\
   trailingRun qualifiesSleep h (Habit.sleep (current st)) /\
   trailingRun qualifiesSteps h (Habit.steps (current st))) /\
  (longestRun qualifiesWorkout h (Habit.workout (best st)) /\
   longestRun qualifiesSleep h (Habit.sleep (best st)) /\
   longestRun qualifiesSteps h (Habit.steps (best st))) /\
  (map Health.workout h = [20; 20; 20; 20; 20; 0] ->
   Habit.workout (current st) = 0 /\ Habit.workout (best st) = 5).

(** The streak counters of one habit are ordered. *)
Definition streaksOrdered (m : Metrics) : Prop :=
  let st := streaks m in
  0 <= Habit.workout (current st) <= Habit.workout (best st) /\
  0 <= Habit.sleep (current st) <= Habit.sleep (best st) /\
  0 <= Habit.steps (current st) <= Habit.steps (best st).

(** Five workout days, then a rest day. *)
Definition fiveThenRest : list Health.t :=
  [ Health.mk "2024-03-04" 9000 400 410 20;
    Health.mk "2024-03-05" 9100 430 420 20;
    Health.mk "2024-03-06" 7000 440 390 20;
    Health.mk "2024-03-07" 8800 410 400 20;
    Health.mk "2024-03-08" 9500 450 430 20;
    Health.mk "2024-03-09" 3000 500 200 0 ].

Definition oneScreenRow : list Screen.t :=
  [ Screen.mk "2024-03-04" "Mail" 35 "Productivity" ].

(** Two records on one date, then a later one. *)
Definition repeatedDate : list Health.t :=
  [ Health.mk "2024-03-04" 9000 400 410 20;
    Health.mk "2024-03-04" 9000 400 410 0;
    Health.mk "2024-03-05" 9000 400 410 20 ].

(** *** Rankings *)

(** The sum of the [minutes] of every record of the app [a]. *)
Definition appMinutes (a : string) (data : list Screen.t) : Z :=
  Arr.sumBy Screen.minutes (filter (fun r => String.eqb (Screen.app r) a) data).

(** A ranking of the apps of [data]: one entry per app, each with the sum
    of that app's minutes, in descending order of minutes. *)
Definition rankingOfTotals (data : list Screen.t) (r : list (string * Z)) : Prop :=
  NoDup (map fst r) /\
  (forall a, In a (map fst r) <-> In a (map Screen.app data)) /\
  (forall a m, In (a, m) r -> m = appMinutes a data) /\
  StronglySorted (fun x y => snd y <= snd x) r.

(** Apps with equal totals stand in the order of their first records. *)
Definition tiesInFirstOccurrenceOrder (data : list Screen.t) (r : list (string * Z)) : Prop :=
  forall k : Z,
    map fst (filter (fun e => snd e =? k) r) =
    filter (fun a => appMinutes a data =? k) (Arr.unique (map Screen.app data)).

Definition rankingAsDescribed (data : list Screen.t) (r : list (string * Z)) : Prop :=
  rankingOfTotals data r /\ tiesInFirstOccurrenceOrder data r.

(** No app is named by an array index such as "2048", nor by a member of
    [Object.prototype]. *)
Definition plainAppNames (data : list Screen.t) : Prop :=
  Forall (fun r => Obj.arrayIndex (Screen.app r) = None /\
                   ~ In (Screen.app r) Obj.inherited) data.

(** The sum of [val] over the elements whose key is [k]. *)
Definition totalFor {A : Type} (key : A -> string) (val : A -> Z) (k : string)
    (l : list A) : Z :=
  Arr.sumBy val (filter (fun x => String.eqb (key x) k) l).

(** Screen-time rows whose per-app totals are A:100, B:250, C:40. *)
Definition totalsABC (data : list Screen.t) : Prop :=
  Forall (fun r => In (Screen.app r) ["A"; "B"; "C"]%string) data /\
  appMinutes "A" data = 100 /\ appMinutes "B" data = 250 /\ appMinutes "C" data = 40.

Definition mostUsedQuestion : string := "Which app do I use the most?".

Definition rowsABC : list Screen.t :=
  [ Screen.mk "2024-03-04" "A" 60 "Social";
    Screen.mk "2024-03-04" "B" 250 "Video";
    Screen.mk "2024-03-05" "C" 40 "Games";
    Screen.mk "2024-03-05" "A" 40 "Social" ].

(** Two apps with equal totals, the second named by an array index. *)
Definition tiedRows : list Screen.t :=
  [ Screen.mk "2024-03-04" "Zed" 100 "Social";
    Screen.mk "2024-03-04" "2048" 100 "Games" ].

(** *** Wellness score *)




(** The reported averages: rounded means over the days of the health
    array, and the rounded mean of the minutes per distinct date. *)
Definition averagesOf (h : list Health.t) (s : list Screen.t) (m : Metrics) : Prop :=
  avgSteps (health m) = roundedMean (Arr.sumBy Health.steps h) (List.length h) /\
  avgSleep (health m) = roundedMean (Arr.sumBy Health.sleep h) (List.length h) /\
  avgWorkout (health m) = roundedMean (Arr.sumBy Health.workout h) (List.length h) /\
  avgDaily (screenTime m) =
  roundedMean (Arr.sumBy Screen.minutes s)
              (List.length (Arr.unique (map Screen.date s))).


(** Inputs without negative figures. *)
Definition nonNegative (h : list Health.t) (s : list Screen.t) : Prop :=
  Forall (fun d => 0 <= Health.steps d /\ 0 <= Health.sleep d /\ 0 <= Health.workout d) h /\
  Forall (fun r => 0 <= Screen.minutes r) s.

(** The four sub-scores lie in [0, 100]. *)
Definition subScoresClamped (m : Metrics) : Prop :=
  let w := wellness m in
  (0 <= stepsScore w <= 100)%Q /\ (0 <= sleepScore w <= 100)%Q /\
  (0 <= workoutScore w <= 100)%Q /\ (0 <= screenTimeScore w <= 100)%Q.


Definition idealRows : list Screen.t :=
  [ Screen.mk "2024-03-04" "Mail" 100 "Productivity";
    Screen.mk "2024-03-04" "Maps" 150 "Travel";
    Screen.mk "2024-03-05" "Mail" 230 "Productivity" ].

Definition marathonDays : list Health.t :=
  [ Health.mk "2024-03-04" 48000 900 4000 240;
    Health.mk "2024-03-05" 52000 30 4200 0 ].

(** *** Weekday and weekend *)







Definition mailRows : list Screen.t :=
  [ Screen.mk "2024-03-10" "Mail" 30 "Productivity";
    Screen.mk "2024-03-04" "mail" 12 "Productivity";
    Screen.mk "2024-03-09" "MAIL" 45 "Productivity";
    Screen.mk "2024-03-05" "Maps" 20 "Travel";
    Screen.mk "2024-03-06" "Mail" 9 "Productivity" ].

(* ------------------------------------------------------------------ *)
(** ** The loaders (src/utils/data.js) and the pages' [fetchData] *)

Module RawHealth.
Record t : Type := mk {
  date : string;
  steps : Z;
  sleep_minutes : Z;
  active_energy_kcal : Z;
  workout_minutes : Z
}.
End RawHealth.

Module RawScreen.
Record t : Type := mk {
  date : string;
  app : string;
  minutes : Z;
  category : string
}.
End RawScreen.

Definition transformHealthData (data : list RawHealth.t) : list Health.t :=
  map (fun item => {| Health.date := RawHealth.date item;
                      Health.steps := RawHealth.steps item;
                      Health.sleep := RawHealth.sleep_minutes item;
                      Health.energy := RawHealth.active_energy_kcal item;
                      Health.workout := RawHealth.workout_minutes item |}) data.

Definition transformScreenTimeData (data : list RawScreen.t) : list Screen.t :=
  map (fun item => {| Screen.date := RawScreen.date item;
                      Screen.app := RawScreen.app item;
                      Screen.minutes := RawScreen.minutes item;
                      Screen.category := RawScreen.category item |}) data.

(** What [response.json()] resolves to: an array of records, or a value
    without [map]. *)
Inductive Body (A : Type) : Type :=
| NotAnArray
| ArrayOf (items : list A).
Arguments NotAnArray {A}.
Arguments ArrayOf {A} items.

(** How [fetch] ends: it rejects, or it resolves to a response with its
    [ok] flag and the outcome of [json()], [None] when that rejects. *)
Inductive Fetched (A : Type) : Type :=
| Rejected
| Response (ok : bool) (json : option (Body A)).
Arguments Rejected {A}.
Arguments Response {A} ok json.

(** The [try] block of a loader: [Some] is its value, [None] a throw. *)
Definition tryLoad {A B : Type} (transform : list A -> list B) (f : Fetched A)
  : option (list B) :=
  match f with
  | Rejected => None
  | Response false _ => None
  | Response true None => None
  | Response true (Some NotAnArray) => None
  | Response true (Some (ArrayOf items)) => Some (transform items)
  end.

(** [try { ... } catch (error) { console.error(...); return [] }] *)
Definition orEmpty {B : Type} (r : option (list B)) : list B :=
  match r with
  | Some l => l
  | None => []
  end.

Definition loadHealthData (f : Fetched RawHealth.t) : list Health.t :=
  orEmpty (tryLoad transformHealthData f).

Definition loadScreenTimeData (f : Fetched RawScreen.t) : list Screen.t :=
  orEmpty (tryLoad transformScreenTimeData f).

(** [fetchData] of both pages: the three values handed to the state
    setters. *)
Definition fetchData (Date_time : string -> Z)
    (fh : Fetched RawHealth.t) (fs : Fetched RawScreen.t)
  : list Health.t * list Screen.t * Metrics :=
  let health := loadHealthData fh in
  let screenTime := loadScreenTimeData fs in
  (health, screenTime, computeMetrics Date_time health screenTime).

(* ------------------------------------------------------------------ *)
(** ** The prompt statistics of [askQuestion] (src/utils/llm.js) *)

(** [Math.round] on a possibly non-finite number. *)
Definition Number_round (x : Number) : Number :=
  match x with
  | Finite q => Finite (inject_Z (Math_round q))
  | other => other
  end.

(** [stats.screenTime.avgDaily]: the average recomputed from
    [metrics.screenTime.dailyTotals]. *)
Definition statsAvgDaily (metrics : Metrics) : Number :=
  let totals := dailyTotals (screenTime metrics) in
  Number_round (Number_div (inject_Z (Arr.sumBy snd totals))
                           (inject_Z (Z.of_nat (List.length totals)))).

(** The two numbers [formatSleep] prints: [Math.floor(minutes / 60)] and
    [minutes % 60], whose sign is that of [minutes]. *)
Definition sleepHours (minutes : Z) : Z := minutes / 60.
Definition sleepRest (minutes : Z) : Z := Z.rem minutes 60.

(** An integer printed in decimal, as a template literal prints it. *)
Definition Number_toString (z : Z) : string := NilZero.string_of_int (Z.to_int z).

(** [(minutes) => `${Math.floor(minutes / 60)}h ${minutes % 60}m`] *)
Definition formatSleep (minutes : Z) : string :=
  (Number_toString (sleepHours minutes) ++ "h "
   ++ Number_toString (sleepRest minutes) ++ "m")%string.

(* ------------------------------------------------------------------ *)
(** ** The dashboard's derived data (src/pages/Dashboard.js) *)



Definition metricRelationships : list (string * list string) :=
  [ ("steps", ["workout"; "sleep"; "energy"; "screenTime"]);
    ("workout", ["steps"; "sleep"; "energy"]);
    ("sleep", ["steps"; "workout"; "energy"; "screenTime"]);
    ("energy", ["steps"; "workout"; "sleep"]);
    ("screenTime", ["steps"; "sleep"]) ]%string.

(** [table[k]] on an object literal whose values are arrays. *)
Fixpoint lookupColumns (table : list (string * list string)) (k : string)
  : option (list string) :=
  match table with
  | [] => None
  | (k', v) :: table' => if String.eqb k k' then Some v else lookupColumns table' k
  end.

Definition getAvailableColumns (firstColumn : string) : list string :=
  if truthy firstColumn then
    match lookupColumns metricRelationships firstColumn with
    | Some columns => columns
    | None => []
    end
  else [].

(** The screen time of the day of [d]: the minutes of the records with
    its date. *)
Definition dayScreenTime (screenTimeData : list Screen.t) (d : Health.t) : Z :=
  Arr.sumBy Screen.minutes
            (filter (fun item => String.eqb (Screen.date item) (Health.date d))
                    screenTimeData).

(** The value a selected column takes on day [d]; [None] when the
    [if]/[else if] chain assigns nothing. *)
Definition columnValue (column : string) (screenTimeData : list Screen.t) (d : Health.t)
  : option Z :=
  if String.eqb column "steps" then Some (Health.steps d)
  else if String.eqb column "workout" then Some (Health.workout d)
  else if String.eqb column "sleep" then Some (Health.sleep d)
  else if String.eqb column "energy" then Some (Health.energy d)
  else if String.eqb column "screenTime" then Some (dayScreenTime screenTimeData d)
  else None.

(** [dataPoint[column] = ...] for one selected column. *)
Definition setColumn (dataPoint : Obj.t) (column : string)
    (screenTimeData : list Screen.t) (d : Health.t) : Obj.t :=
  match columnValue column screenTimeData d with
  | Some v => Obj.set dataPoint column v
  | None => dataPoint
  end.

(** [generateNotifications().map(n => n.id)]: which notifications are
    raised, in order.  The two averages are not rounded. *)
Definition generateNotificationIds (metrics : option Metrics) (healthData : list Health.t)
  : list string :=
  match metrics, healthData with
  | None, _ | _, [] => []
  | Some m, _ :: _ =>
      let recentData := Arr.slice healthData (-7) None in
      let today := Arr.lastOf recentData in
      let count := Z.of_nat (List.length recentData) in
      let avgSteps := (inject_Z (Arr.sumBy Health.steps recentData) / inject_Z count)%Q in
      let avgSleep := (inject_Z (Arr.sumBy Health.sleep recentData) / inject_Z count)%Q in
      let cur := current (streaks m) in
      (if 3 <=? Habit.workout cur then ["workout-streak"%string] else [])
      ++ (if 5 <=? Habit.sleep cur then ["sleep-streak"%string] else [])
      ++ (match today with
          | Some t => if 10000 <=? Health.steps t then ["steps-goal"%string] else []
          | None => []
          end)
      ++ (if andb (negb (Qle_bool 8000 avgSteps)) (3 <=? count)
          then ["steps-warning"%string] else [])
      ++ (if andb (negb (Qle_bool 420 avgSleep)) (3 <=? count)
          then ["sleep-warning"%string] else [])
      ++ (if andb (0 <? Habit.workout (best (streaks m))) (Habit.workout cur =? 0)
          then ["streak-reminder"%string] else [])
  end.

Section CustomChart.
(** [new Date(s).toLocaleDateString('en-US', { month: 'short', day:
    'numeric' })], the host's rendering of a date. *)
Variable formatDate : string -> string.

(** One entry per day of the range: the formatted date and the
    properties set for the two selected columns. *)
Definition customChartData (dayRange : Z) (selectedColumn1 selectedColumn2 : string)
    (healthData : list Health.t) (screenTimeData : list Screen.t)
  : list (string * Obj.t) :=
  if andb (truthy selectedColumn1) (truthy selectedColumn2) then
    map (fun d =>
           (formatDate (Health.date d),
            setColumn (setColumn Obj.empty selectedColumn1 screenTimeData d)
                      selectedColumn2 screenTimeData d))
        (Arr.slice healthData (- dayRange) None)
  else [].
End CustomChart.

(* ------------------------------------------------------------------ *)
(** ** Further vocabulary *)

(** [r] lists each key of [l] once, with the sum of its values, in
    descending order of the sums, and the sums add up to the whole. *)
Definition totalsRanking {A : Type} (key : A -> string) (val : A -> Z)
    (l : list A) (r : list (string * Z)) : Prop :=
  NoDup (map fst r) /\
  (forall k, In k (map fst r) <-> In k (map key l)) /\
  (forall k v, In (k, v) r -> v = totalFor key val k l) /\
  StronglySorted (fun x y => snd y <= snd x) r /\
  Arr.sumBy snd r = Arr.sumBy val l.

(** [r] lists each date of [s] once, with the minutes of that date, in
    the order of the date strings, and the totals add up to the whole. *)
Definition dailyTotalsOf (s : list Screen.t) (r : list (string * Z)) : Prop :=
  NoDup (map fst r) /\
  (forall d, In d (map fst r) <-> In d (map Screen.date s)) /\
  (forall d v, In (d, v) r -> v = totalFor Screen.date Screen.minutes d s) /\
  Sorted (fun x y => Str.localeCompare (fst x) (fst y) <= 0) r /\
  Arr.sumBy snd r = Arr.sumBy Screen.minutes s /\
  List.length r = List.length (Arr.unique (map Screen.date s)).



(** The composite scores stay on their scale. *)
Definition scoresWithinBounds (m : Metrics) : Prop :=
  let w := wellness m in
  0 <= score w <= 100 /\ 0 <= weeklyScore w <= 100 /\ -100 <= weeklyChange w <= 100.

(** Every screen-time record is dated on a day of the health array. *)
Definition datedWithin (h : list Health.t) (s : list Screen.t) : Prop :=
  Forall (fun r => In (Screen.date r) (map Health.date h)) s.

(** Two results that agree on everything but the weekly comparison. *)
Definition sameButWeekly (m m' : Metrics) : Prop :=
  health m = health m' /\ screenTime m = screenTime m' /\ streaks m = streaks m' /\
  score (wellness m) = score (wellness m') /\
  stepsScore (wellness m) = stepsScore (wellness m') /\
  sleepScore (wellness m) = sleepScore (wellness m') /\
  workoutScore (wellness m) = workoutScore (wellness m') /\
  screenTimeScore (wellness m) = screenTimeScore (wellness m').

(** The workout counters of one result are consistent. *)
Definition workoutCountersConsistent (h : list Health.t) (m : Metrics) : Prop :=
  Habit.workout (current (streaks m)) <= workoutDays (health m) /\
  Habit.workout (best (streaks m)) <= workoutDays (health m) /\
  0 <= workoutDays (health m) <= Z.of_nat (List.length h) /\
  (h <> [] -> forall n, totalDays (health m) = Some n -> n = Z.of_nat (List.length h)).

(** The records of [fiveThenRest] in another order. *)
Definition fiveThenRestShuffled : list Health.t :=
  [ Health.mk "2024-03-08" 9500 450 430 20;
    Health.mk "2024-03-04" 9000 400 410 20;
    Health.mk "2024-03-09" 3000 500 200 0;
    Health.mk "2024-03-06" 7000 440 390 20;
    Health.mk "2024-03-05" 9100 430 420 20;
    Health.mk "2024-03-07" 8800 410 400 20 ].






(** No record has negative workout minutes. *)
Definition workoutNonNegative (h : list Health.t) : Prop :=
  Forall (fun d => 0 <= Health.workout d) h.

(** The six notifications, in the order they are considered. *)
Definition notificationOrder : list string :=
  [ "workout-streak"; "sleep-streak"; "steps-goal"; "steps-warning"; "sleep-warning";
    "streak-reminder" ]%string.

(** [l] keeps some of the elements of [full], in the same order. *)
Inductive Subsequence {A : Type} : list A -> list A -> Prop :=
| Subsequence_nil : Subsequence [] []
| Subsequence_skip (x : A) (l full : list A) :
    Subsequence l full -> Subsequence l (x :: full)
| Subsequence_keep (x : A) (l full : list A) :
    Subsequence l full -> Subsequence (x :: l) (x :: full).

(** One of the two fetches did not deliver an array of records. *)
Definition loadFailed {A : Type} (f : Fetched A) : Prop :=
  forall items, f <> Response true (Some (ArrayOf items)).

Definition rawDays : list RawHealth.t :=
  [ RawHealth.mk "2024-03-04" 9000 400 410 20;
    RawHealth.mk "2024-03-05" 9100 430 420 0 ].

Definition restDays : list Health.t :=
  [ Health.mk "2024-03-04" 2000 300 410 0;
    Health.mk "2024-03-05" 2500 310 420 0;
    Health.mk "2024-03-06" 1800 290 390 0 ].

(** The pairs of columns the custom chart lets one combine. *)
Definition combinable (a b : string) : Prop := In b (getAvailableColumns a).

(* ------------------------------------------------------------------ *)
(** ** The steps chart of [askChartQuestion] (src/utils/llm.js) *)

(** [Math.max(...values)]: minus infinity for no value. *)
Definition Math_max_spread (values : list Z) : Number :=
  match values with
  | [] => NegInfinity
  | x :: rest => Finite (inject_Z (fold_left Z.max rest x))
  end.

(** [Math.min(...values)]: plus infinity for no value. *)
Definition Math_min_spread (values : list Z) : Number :=
  match values with
  | [] => PosInfinity
  | x :: rest => Finite (inject_Z (fold_left Z.min rest x))
  end.

Record StepsStats : Type := {
  chartAvgSteps : Number;
  chartMaxSteps : Number;
  chartMinSteps : Number
}.

Section StepsChart.
(** The host's rendering of a date, as in the dashboard. *)
Variable formatDate : string -> string.

(** [recent30Days.map(d => ({ date: formatDate(d.date), steps: d.steps }))] *)
Definition stepsData (healthData : list Health.t) : list (string * Z) :=
  map (fun d => (formatDate (Health.date d), Health.steps d))
      (Arr.slice healthData (-30) None).

(** The three figures of the branch [chartContext === 'steps']. *)
Definition stepsChartStats (healthData : list Health.t) : StepsStats :=
  let data := stepsData healthData in
  {| chartAvgSteps :=
       Number_round (Number_div (inject_Z (Arr.sumBy snd data))
                                (inject_Z (Z.of_nat (List.length data))));
     chartMaxSteps := Math_max_spread (map snd data);
     chartMinSteps := Math_min_spread (map snd data) |}.
End StepsChart.

(** The figures of the steps chart are finite and ordered, and the
    extremes are reached and bound the steps of the last 30 records. *)
Definition stepsStatsOrdered (healthData : list Health.t) (st : StepsStats) : Prop :=
  exists avg hi lo : Z,
    chartAvgSteps st = Finite (inject_Z avg) /\
    chartMaxSteps st = Finite (inject_Z hi) /\
    chartMinSteps st = Finite (inject_Z lo) /\
    lo <= avg <= hi /\
    In hi (map Health.steps (lastN 30 healthData)) /\
    In lo (map Health.steps (lastN 30 healthData)) /\
    (forall d, In d (lastN 30 healthData) -> lo <= Health.steps d <= hi).

(** The point [p] charts day [d] completely: it carries the formatted
    date of [d] and exactly two properties, column [a] then column [b],
    with the values of [d]. *)
Definition chartedDay (formatDate : string -> string) (a b : string)
    (screenTimeData : list Screen.t) (d : Health.t) (p : string * Obj.t) : Prop :=
  fst p = formatDate (Health.date d) /\
  exists va vb,
    columnValue a screenTimeData d = Some va /\
    columnValue b screenTimeData d = Some vb /\
    Obj.entries (snd p) = [(a, va); (b, vb)].

(* ------------------------------------------------------------------ *)
(** ** The per-date usage of [askQuestion] (src/utils/llm.js) *)

Module Nested.
(** An object whose properties hold dictionaries: own properties in
    creation order. *)
Definition t := list (string * Obj.t).

Definition empty : t := [].

(** [o[k]] *)
Fixpoint get (o : t) (k : string) : option Obj.t :=
  match o with
  | [] => None
  | (k', v) :: o' => if String.eqb k k' then Some v else get o' k
  end.

(** [o[k] = v] *)
Fixpoint set (o : t) (k : string) (v : Obj.t) : t :=
  match o with
  | [] => [(k, v)]
  | (k', v') :: o' =>
      if String.eqb k k' then (k', v) :: o' else (k', v') :: set o' k v
  end.

Definition isIndex (e : string * Obj.t) : bool :=
  match Obj.arrayIndex (fst e) with
  | Some _ => true
  | None => false
  end.

Definition indexOrder (a b : string * Obj.t) : Z :=
  or_zero (Obj.arrayIndex (fst a)) - or_zero (Obj.arrayIndex (fst b)).

(** [Object.entries(o)] *)
Definition entries (o : t) : list (string * Obj.t) :=
  Arr.sort indexOrder (filter isIndex o) ++ filter (fun e => negb (isIndex e)) o.
End Nested.

(** One pass of the [forEach] of [askQuestion]: the date gets an empty
    dictionary when it has none, the app a 0 when it has none or a 0, and
    the minutes are added in place. *)
Definition addUsage (appUsageByDate : Nested.t) (item : Screen.t) : Nested.t :=
  let byDate :=
    match Nested.get appUsageByDate (Screen.date item) with
    | Some _ => appUsageByDate
    | None => Nested.set appUsageByDate (Screen.date item) Obj.empty
    end in
  match Nested.get byDate (Screen.date item) with
  | None => byDate
  | Some apps =>
      let apps0 :=
        match Obj.get apps (Screen.app item) with
        | Some v => if v =? 0 then Obj.set apps (Screen.app item) 0 else apps
        | None => Obj.set apps (Screen.app item) 0
        end in
      match Obj.get apps0 (Screen.app item) with
      | None => byDate
      | Some v =>
          Nested.set byDate (Screen.date item)
                     (Obj.set apps0 (Screen.app item) (v + Screen.minutes item))
      end
  end.

Definition appUsageByDate (screenTimeData : list Screen.t) : Nested.t :=
  fold_left addUsage screenTimeData Nested.empty.






(* ================================================================== *)
(** * Properties *)

(** ** Rounding and averages *)

Section Rounding.
Local Open Scope Z_scope.

Lemma Math_round_ratio (a b : Z) :
  0 < b -> Math_round (inject_Z a / inject_Z b) = (2 * a + b) / (2 * b).
Proof.
  intros Hb. unfold Math_round.
  rewrite (Zdiv_Qdiv (2 * a + b) (2 * b)).
  apply Qfloor_comp.
  rewrite !inject_Z_plus, !inject_Z_mult.
  assert (Hq : ~ (inject_Z b == 0)%Q).
  { unfold Qeq. simpl. lia. }
  field. exact Hq.
Qed.

Lemma roundedMean_div (total : Z) (count : nat) :
  (0 < count)%nat ->
  roundedMean total count = (2 * total + Z.of_nat count) / (2 * Z.of_nat count).
Proof.
  intros H. unfold roundedMean. apply Math_round_ratio. lia.
Qed.


Lemma roundedMean_nonneg (total : Z) (count : nat) :
  (0 < count)%nat -> 0 <= total -> 0 <= roundedMean total count.
Proof.
  intros H Ht. rewrite roundedMean_div by exact H.
  apply Z.div_pos; lia.
Qed.
End Rounding.

(** ** Windows of an array *)

Section Windows.
Context {A : Type}.

Lemma slice_trailing (l : list A) (n : nat) :
  (0 < n)%nat -> Arr.slice l (- Z.of_nat n) None = lastN n l.
Proof.
  intros Hn. unfold Arr.slice, Arr.relIndex, lastN.
  destruct (Z.ltb_spec (- Z.of_nat n) 0) as [_ | Hge]; [| lia].
  replace (Z.to_nat (Z.max (Z.of_nat (List.length l) + - Z.of_nat n) 0))
    with (List.length l - n)%nat by lia.
  apply firstn_all2. rewrite length_skipn. lia.
Qed.

Lemma slice_between (l : list A) (a b : nat) :
  (0 < b <= a)%nat ->
  Arr.slice l (- Z.of_nat a) (Some (- Z.of_nat b)) = lastN (a - b) (dropLastN b l).
Proof.
  intros Hab. unfold Arr.slice, Arr.relIndex, lastN, dropLastN.
  destruct (Z.ltb_spec (- Z.of_nat a) 0) as [_ | Hge]; [| lia].
  destruct (Z.ltb_spec (- Z.of_nat b) 0) as [_ | Hge]; [| lia].
  set (len := List.length l).
  rewrite length_firstn. fold len.
  replace (Z.to_nat (Z.max (Z.of_nat len + - Z.of_nat a) 0)) with (len - a)%nat by lia.
  replace (Z.to_nat (Z.max (Z.of_nat len + - Z.of_nat b) 0
                     - Z.max (Z.of_nat len + - Z.of_nat a) 0))
    with ((len - b) - (len - a))%nat by lia.
  replace (Nat.min (len - b) len - (a - b))%nat with (len - a)%nat by lia.
  rewrite firstn_skipn_comm. f_equal. f_equal. lia.
Qed.

Lemma lastN_length (n : nat) (l : list A) :
  List.length (lastN n l) = Nat.min n (List.length l).
Proof. unfold lastN. rewrite length_skipn. lia. Qed.

Lemma dropLastN_length (n : nat) (l : list A) :
  List.length (dropLastN n l) = (List.length l - n)%nat.
Proof. unfold dropLastN. rewrite length_firstn. lia. Qed.
End Windows.

(** ** The guard of [computeMetrics] (C3) *)

Lemma zeroMetrics_allZero : allZero zeroMetrics.
Proof. unfold allZero; cbn; repeat split. Qed.

(** C3. When the health array or the screen-time array is empty,
    [computeMetrics] returns the all-zero shape: every average, sub-score,
    score, weekly figure and streak counter is 0 and every list is empty.
    The function is total, so there is no input on which it fails to
    return. *)
Theorem computeMetrics_empty_input
    (Date_time : string -> Z) (healthData : list Health.t) (screenTimeData : list Screen.t) :
  healthData = [] \/ screenTimeData = [] ->
  computeMetrics Date_time healthData screenTimeData = zeroMetrics /\
  allZero (computeMetrics Date_time healthData screenTimeData).
Proof.
  intros H.
  assert (E : computeMetrics Date_time healthData screenTimeData = zeroMetrics).
  { destruct H as [-> | ->]; [reflexivity |].
    destruct healthData; reflexivity. }
  split; [exact E | rewrite E; apply zeroMetrics_allZero].
Qed.

Lemma computeMetrics_empty_input_witness :
  computeMetrics Iso.time [] [Screen.mk "2024-01-01" "Mail" 12 "Work"] = zeroMetrics /\
  allZero (computeMetrics Iso.time [] [Screen.mk "2024-01-01" "Mail" 12 "Work"]).
Proof.
  apply (computeMetrics_empty_input Iso.time [] [Screen.mk "2024-01-01" "Mail" 12 "Work"]).
  left. reflexivity.
Defined.

(** ** Trend statistics (C7) *)


Lemma computeTrendStats_windows (healthData : list Health.t) (metric : HealthField) :
  computeTrendStats healthData metric =
  match lastN 30 (dropLastN 30 healthData) with
  | [] => None
  | _ :: _ =>
      let recentAvg := average (field metric) (lastN 30 healthData) in
      let previousAvg := average (field metric) (lastN 30 (dropLastN 30 healthData)) in
      Some {| recent30Days := recentAvg;
              previous30Days := previousAvg;
              change := recentAvg - previousAvg;
              percentChange :=
                if 0 <? previousAvg
                then Math_round (inject_Z (recentAvg - previousAvg) / inject_Z previousAvg * 100)
                else 0;
              trend := trendLabel (recentAvg - previousAvg);
              dailyValues :=
                map (fun d => (Health.date d, field metric d)) (lastN 30 healthData) |}
  end.
Proof.
  unfold computeTrendStats.
  change (-30) with (- Z.of_nat 30). change (-60) with (- Z.of_nat 60).
  rewrite slice_trailing by lia. rewrite slice_between by lia.
  change (60 - 30)%nat with 30%nat.
  destruct (lastN 30 (dropLastN 30 healthData)); reflexivity.
Qed.



(** ** The stable sort *)

Section SortFacts.
Context {A : Type}.
Variable cmp : A -> A -> Z.

Lemma insert_perm (x : A) (l : list A) : Permutation (Arr.insert cmp x l) (x :: l).
Proof.
  induction l as [| y l IH]; simpl; [reflexivity |].
  destruct (cmp x y <=? 0); [reflexivity |].
  rewrite IH. apply perm_swap.
Qed.

Lemma sort_perm (l : list A) : Permutation (Arr.sort cmp l) l.
Proof.
  induction l as [| x l IH]; simpl; [constructor |].
  unfold Arr.sort in IH. rewrite insert_perm. now constructor.
Qed.

Lemma sort_length (l : list A) : List.length (Arr.sort cmp l) = List.length l.
Proof. apply Permutation_length, sort_perm. Qed.

Lemma sort_cons (x : A) (l : list A) :
  Arr.sort cmp (x :: l) = Arr.insert cmp x (Arr.sort cmp l).
Proof. reflexivity. Qed.

(** Stability: elements that compare equal keep their relative order. *)
Lemma insert_filter (p : A -> bool) (x : A) (l : list A) :
  (forall y, p x = true -> p y = true -> cmp x y <= 0) ->
  filter p (Arr.insert cmp x l) = filter p (x :: l).
Proof.
  intros Hp. induction l as [| y l IH]; [reflexivity |].
  simpl. destruct (Z.leb_spec (cmp x y) 0) as [Hle | Hgt]; [reflexivity |].
  simpl. rewrite IH. simpl.
  destruct (p x) eqn:Px, (p y) eqn:Py; try reflexivity.
  specialize (Hp y eq_refl Py). lia.
Qed.

Lemma sort_stable (p : A -> bool) (l : list A) :
  (forall x y, p x = true -> p y = true -> cmp x y <= 0) ->
  filter p (Arr.sort cmp l) = filter p l.
Proof.
  intros Hp. induction l as [| x l IH]; [reflexivity |].
  rewrite sort_cons, insert_filter by (intros; now apply Hp).
  simpl. now rewrite IH.
Qed.

Lemma insert_front (x : A) (l : list A) :
  HdRel (fun a b => cmp a b <= 0) x l -> Arr.insert cmp x l = x :: l.
Proof.
  intros H. destruct H as [| y l H]; [reflexivity |].
  simpl. apply Z.leb_le in H. now rewrite H.
Qed.

(** An array already in order is left as it is. *)
Lemma sort_sorted_id (l : list A) :
  Sorted (fun a b => cmp a b <= 0) l -> Arr.sort cmp l = l.
Proof.
  induction 1 as [| x l Hs IH Hd]; [reflexivity |].
  rewrite sort_cons, IH. now apply insert_front.
Qed.

Hypothesis cmp_total : forall x y, 0 < cmp x y -> cmp y x <= 0.

Lemma insert_Sorted (x : A) (l : list A) :
  Sorted (fun a b => cmp a b <= 0) l ->
  Sorted (fun a b => cmp a b <= 0) (Arr.insert cmp x l).
Proof.
  induction 1 as [| y l Hs IH Hd]; simpl.
  - repeat constructor.
  - destruct (Z.leb_spec (cmp x y) 0) as [Hle | Hgt].
    + constructor; [now constructor | now constructor].
    + constructor; [exact IH |].
      destruct Hd as [| z l Hz]; simpl.
      * constructor. now apply cmp_total.
      * destruct (cmp x z <=? 0); constructor; [now apply cmp_total | exact Hz].
Qed.

Lemma sort_Sorted (l : list A) : Sorted (fun a b => cmp a b <= 0) (Arr.sort cmp l).
Proof.
  induction l as [| x l IH]; [constructor |].
  rewrite sort_cons. now apply insert_Sorted.
Qed.
End SortFacts.

(** Sorting by an integer key. *)
Section SortByKey.
Context {A : Type}.
Variable key : A -> Z.
Variable cmp : A -> A -> Z.
Hypothesis cmp_key : forall x y, cmp x y <= 0 <-> key x <= key y.

Lemma sort_key_sorted (l : list A) :
  StronglySorted (fun a b => key a <= key b) (Arr.sort cmp l).
Proof.
  apply Sorted_StronglySorted.
  - intros a b c Hab Hbc. lia.
  - assert (Hs : Sorted (fun a b => cmp a b <= 0) (Arr.sort cmp l)).
    { apply sort_Sorted. intros x y Hxy. apply cmp_key.
      destruct (Z.le_gt_cases (key y) (key x)) as [Hle | Hgt]; [exact Hle |].
      assert (cmp x y <= 0) by (apply cmp_key; lia). lia. }
    induction Hs as [| x s Hs IH Hd]; constructor; [exact IH |].
    destruct Hd; constructor. now apply cmp_key.
Qed.

Lemma strict_of_nodup (l : list A) :
  StronglySorted (fun a b => key a <= key b) l -> NoDup (map key l) ->
  StronglySorted (fun a b => key a < key b) l.
Proof.
  induction 1 as [| x l Hs IH Hall]; intros Hnd; constructor.
  - apply IH. now inversion Hnd.
  - inversion Hnd as [| k ks Hnotin Hnd']; subst.
    rewrite Forall_forall in *. intros y Hy.
    specialize (Hall y Hy).
    assert (key x <> key y).
    { intros E. apply Hnotin. rewrite E. now apply in_map. }
    lia.
Qed.

Lemma sort_key_strict (l : list A) :
  NoDup (map key l) -> StronglySorted (fun a b => key a < key b) (Arr.sort cmp l).
Proof.
  intros Hnd. apply strict_of_nodup; [apply sort_key_sorted |].
  eapply Permutation_NoDup; [| exact Hnd].
  apply Permutation_map. symmetry. apply sort_perm.
Qed.

(** A strictly ordered arrangement of given elements is unique. *)
Lemma strict_sorted_unique (l1 l2 : list A) :
  StronglySorted (fun a b => key a < key b) l1 ->
  StronglySorted (fun a b => key a < key b) l2 ->
  Permutation l1 l2 -> l1 = l2.
Proof.
  intros H1. revert l2.
  induction H1 as [| a l1 Hs1 IH Hall1]; intros l2 H2 Hp.
  - apply Permutation_nil in Hp. now subst.
  - destruct H2 as [| b l2 Hs2 Hall2].
    + symmetry in Hp. apply Permutation_nil in Hp. discriminate.
    + assert (Eab : a = b).
      { assert (Ha : In a (b :: l2)) by (eapply Permutation_in; [exact Hp | now left]).
        assert (Hb : In b (a :: l1))
          by (eapply Permutation_in; [symmetry; exact Hp | now left]).
        destruct Ha as [-> | Ha]; [reflexivity |].
        destruct Hb as [-> | Hb]; [reflexivity |].
        rewrite Forall_forall in Hall1, Hall2.
        specialize (Hall1 b Hb). specialize (Hall2 a Ha). lia. }
      subst b. f_equal. apply IH; [exact Hs2 |].
      eapply Permutation_cons_inv. exact Hp.
Qed.
End SortByKey.

Lemma StronglySorted_snoc {A : Type} (R : A -> A -> Prop) (l : list A) (x : A) :
  StronglySorted R l -> Forall (fun y => R y x) l -> StronglySorted R (l ++ [x]).
Proof.
  induction 1 as [| a l Hs IH Hall]; intros Hx; simpl.
  - repeat constructor.
  - inversion Hx as [| ? ? Hax Hx']; subst. constructor; [now apply IH |].
    apply Forall_app. split; [exact Hall | now constructor].
Qed.

Lemma StronglySorted_rev {A : Type} (R : A -> A -> Prop) (l : list A) :
  StronglySorted R l -> StronglySorted (fun a b => R b a) (rev l).
Proof.
  induction 1 as [| a l Hs IH Hall]; simpl; [constructor |].
  apply StronglySorted_snoc; [exact IH |].
  apply Forall_rev. exact Hall.
Qed.

(** ** Streak loops *)

Section StreakFacts.
Variable ok : Health.t -> bool.

Lemma streakLoop_acc (n : Z) (l : list Health.t) :
  streakLoop ok n l = n + streakLoop ok 0 l.
Proof.
  revert n. induction l as [| d l IH]; intros n; simpl; [lia |].
  destruct (ok d); [| lia].
  rewrite (IH (n + 1)), (IH 1). lia.
Qed.

Lemma streakLoop_nonneg (l : list Health.t) : 0 <= streakLoop ok 0 l.
Proof.
  induction l as [| d l IH]; simpl; [lia |].
  destruct (ok d); [| lia]. rewrite streakLoop_acc. lia.
Qed.

Lemma streakLoop_app_all (run rest : list Health.t) :
  forallb ok run = true ->
  streakLoop ok 0 (run ++ rest) = Z.of_nat (List.length run) + streakLoop ok 0 rest.
Proof.
  induction run as [| d run IH]; intros Hall; [reflexivity |].
  simpl in Hall. apply andb_prop in Hall as [Hd Hall].
  cbn [app streakLoop List.length]. rewrite Hd, streakLoop_acc, IH by exact Hall. lia.
Qed.

Lemma streakLoop_snoc (l : list Health.t) (d : Health.t) :
  streakLoop ok 0 (rev (l ++ [d])) =
  if ok d then streakLoop ok 0 (rev l) + 1 else 0.
Proof.
  rewrite rev_app_distr. simpl. destruct (ok d); [| reflexivity].
  rewrite streakLoop_acc. lia.
Qed.

(** A qualifying tail of [l] is no longer than what the loop counts. *)
Lemma suffix_le_streak (pre run : list Health.t) :
  forallb ok run = true ->
  Z.of_nat (List.length run) <= streakLoop ok 0 (rev (pre ++ run)).
Proof.
  intros Hall. rewrite rev_app_distr, streakLoop_app_all.
  - rewrite length_rev. pose proof (streakLoop_nonneg (rev pre)). lia.
  - rewrite forallb_forall in *. intros x Hx. apply Hall. now apply in_rev.
Qed.

Lemma streakLoop_trailing (l : list Health.t) :
  trailingRun ok l (streakLoop ok 0 (rev l)).
Proof.
  induction l as [| d l IH] using rev_ind.
  - exists [], []. repeat split; auto.
  - rewrite streakLoop_snoc. destruct (ok d) eqn:Hd.
    + destruct IH as (pre & run & El & Hall & Hlen & Hpre).
      exists pre, (run ++ [d]). repeat split.
      * rewrite El. now rewrite app_assoc.
      * rewrite forallb_app, Hall. simpl. now rewrite Hd.
      * rewrite length_app. simpl. lia.
      * exact Hpre.
    + exists (l ++ [d]), []. repeat split.
      * now rewrite app_nil_r.
      * right. now exists l, d.
Qed.

Lemma snoc_split (l : list Health.t) (d : Health.t) (a b : list Health.t) :
  l ++ [d] = a ++ b ->
  (b = [] /\ a = l ++ [d]) \/ (exists b', b = b' ++ [d] /\ l = a ++ b').
Proof.
  intros E. destruct b as [| y b] using rev_ind.
  - left. rewrite app_nil_r in E. auto.
  - right. clear IHb. rewrite app_assoc in E. apply app_inj_tail in E as [El Ed].
    subst. now exists b.
Qed.

Lemma isRun_snoc (l : list Health.t) (d : Health.t) (run : list Health.t) :
  isRun ok l run -> isRun ok (l ++ [d]) run.
Proof.
  intros [(pre & post & E) Hall]. split; [| exact Hall].
  exists pre, (post ++ [d]). rewrite E. now rewrite <- !app_assoc.
Qed.

(** A run of [l ++ [d]] is a run of [l], or it ends with [d] and extends
    a qualifying tail of [l]. *)
Lemma isRun_snoc_inv (l : list Health.t) (d : Health.t) (run : list Health.t) :
  isRun ok (l ++ [d]) run ->
  isRun ok l run \/
  (ok d = true /\ exists pre run', run = run' ++ [d] /\ l = pre ++ run' /\
                                 forallb ok run' = true).
Proof.
  intros [(pre & post & E) Hall].
  rewrite app_assoc in E. apply snoc_split in E as [[-> E] | (post' & -> & E)].
  - symmetry in E. apply snoc_split in E as [[-> _] | (run' & -> & E)].
    + left. split; [| reflexivity]. exists l, []. now rewrite app_nil_r.
    + right. rewrite forallb_app in Hall. apply andb_prop in Hall as [Hr Hd].
      simpl in Hd. rewrite andb_true_r in Hd. split; [exact Hd |].
      now exists pre, run'.
  - left. split; [| exact Hall]. exists pre, post'. now rewrite E, app_assoc.
Qed.

Lemma bestLoop_inv (l : list Health.t) :
  let st := fold_left (bestStep ok) l (0, 0) in
  snd st = streakLoop ok 0 (rev l) /\ snd st <= fst st /\ longestRun ok l (fst st).
Proof.
  induction l as [| d l IH] using rev_ind.
  - simpl. repeat split; try lia.
    + exists []. split; [| reflexivity]. split; [| reflexivity]. now exists [], [].
    + intros run [(pre & post & E) _].
      symmetry in E. apply app_eq_nil in E as [_ E]. apply app_eq_nil in E as [-> _].
      simpl. lia.
  - rewrite fold_left_app. cbn [fold_left].
    destruct (fold_left (bestStep ok) l (0, 0)) as [b c]. cbn [fst snd] in IH.
    destruct IH as (Hc & Hcb & (run0 & Hrun0 & Hlen0) & Hmax).
    pose proof (streakLoop_trailing (l ++ [d])) as Htr.
    rewrite streakLoop_snoc in *. unfold bestStep. cbn [fst snd].
    destruct (ok d) eqn:Hd; cbn [fst snd].
    + split; [lia |]. split; [lia |]. split.
      * destruct (Z.max_spec b (c + 1)) as [[Hlt ->] | [Hge ->]].
        -- destruct Htr as (pre & run & El & Hall & Hlen & _).
           exists run. split; [| lia]. split; [| exact Hall].
           exists pre, []. now rewrite app_nil_r.
        -- exists run0. split; [now apply isRun_snoc | exact Hlen0].
      * intros run Hrun. apply isRun_snoc_inv in Hrun as [Hrun | (_ & pre & run' & -> & El & Hall)].
        -- specialize (Hmax run Hrun). lia.
        -- pose proof (suffix_le_streak pre run' Hall) as Hle.
           rewrite <- El in Hle. rewrite length_app. simpl. lia.
    + split; [reflexivity |].
      pose proof (streakLoop_nonneg (rev l)). split; [lia |]. split.
      * exists run0. split; [now apply isRun_snoc | exact Hlen0].
      * intros run Hrun. apply isRun_snoc_inv in Hrun as [Hrun | (Hd' & _)].
        -- now apply Hmax.
        -- congruence.
Qed.

Lemma bestLoop_longest (l : list Health.t) : longestRun ok l (bestLoop ok l).
Proof. apply bestLoop_inv. Qed.

Lemma streak_le_best (l : list Health.t) :
  streakLoop ok 0 (rev l) <= bestLoop ok l.
Proof.
  unfold bestLoop. destruct (bestLoop_inv l) as (Hc & Hcb & _). lia.
Qed.
End StreakFacts.

(** ** The streak counters of [computeMetrics] (C4, C2) *)

Lemma StronglySorted_weaken {A : Type} (R R' : A -> A -> Prop) (l : list A) :
  (forall a b, R a b -> R' a b) -> StronglySorted R l -> StronglySorted R' l.
Proof.
  intros HR. induction 1 as [| a l Hs IH Hall]; constructor; [exact IH |].
  eapply Forall_impl; [| exact Hall]. intros b. apply HR.
Qed.

Ltac solve_chronological :=
  repeat (constructor; [| repeat (constructor; try reflexivity)]); constructor.

Section StreakCounters.
Variable Date_time : string -> Z.

Let time (d : Health.t) : Z := Date_time (Health.date d).

Lemma chronological_distinct (h : list Health.t) :
  chronological Date_time h -> distinctDates Date_time h.
Proof.
  unfold chronological, distinctDates.
  induction 1 as [| d h Hs IH Hall]; simpl; constructor; [| exact IH].
  intros Hin. apply in_map_iff in Hin as (d' & E & Hd').
  rewrite Forall_forall in Hall. specialize (Hall d' Hd'). lia.
Qed.

Lemma oldestFirst_chronological (h : list Health.t) :
  chronological Date_time h -> Arr.sort (oldestFirst Date_time) h = h.
Proof.
  intros Hc. apply sort_sorted_id. apply StronglySorted_Sorted.
  eapply StronglySorted_weaken; [| exact Hc].
  intros a b Hab. unfold oldestFirst. cbv beta in Hab. lia.
Qed.

(** With one record per date, the newest-first copy is the oldest-first
    copy read backward. *)
Lemma newestFirst_rev (h : list Health.t) :
  distinctDates Date_time h ->
  Arr.sort (newestFirst Date_time) h = rev (Arr.sort (oldestFirst Date_time) h).
Proof.
  intros Hnd. apply (strict_sorted_unique (fun d => - time d)).
  - apply sort_key_strict.
    + intros x y. unfold newestFirst, time. lia.
    + unfold distinctDates in Hnd.
      rewrite <- (map_map (fun d => Date_time (Health.date d)) Z.opp).
      apply Finite.Injective_map_NoDup; [| exact Hnd].
      intros a b Hab. lia.
  - apply (StronglySorted_weaken (fun a b => time b < time a)); [intros a b; lia |].
    apply (StronglySorted_rev (fun a b => time a < time b)).
    apply (sort_key_strict time); [| exact Hnd].
    intros x y. unfold oldestFirst, time. lia.
  - rewrite sort_perm. rewrite <- Permutation_rev. symmetry. apply sort_perm.
Qed.

Lemma newestFirst_chronological (h : list Health.t) :
  chronological Date_time h -> Arr.sort (newestFirst Date_time) h = rev h.
Proof.
  intros Hc. rewrite newestFirst_rev by now apply chronological_distinct.
  now rewrite oldestFirst_chronological.
Qed.

(** C4. On every input whose records carry distinct dates, as the data
    model requires, each habit's current streak lies between 0 and its
    best streak. *)
Theorem current_streak_within_best (h : list Health.t) (s : list Screen.t) :
  distinctDates Date_time h -> streaksOrdered (computeMetrics Date_time h s).
Proof.
  intros Hnd. unfold streaksOrdered.
  destruct h as [| d h]; [cbn; lia |]. destruct s as [| r s]; [cbn; lia |].
  unfold computeMetrics, metricsFrom.
  cbn [streaks current best Habit.workout Habit.sleep Habit.steps].
  rewrite newestFirst_rev by exact Hnd.
  repeat split; try apply streakLoop_nonneg; apply streak_le_best.
Qed.

(** C2, amended.  For a non-empty chronological health array and a
    non-empty screen-time array, each habit's current streak counts the
    qualifying days backward from the most recent record up to the first
    failing day (workout at least 15, sleep at least 420, steps at least
    8000), and its best streak is the maximum length of a run of
    consecutive qualifying days; five days at workout 20 followed by one
    day at workout 0 give a current workout streak of 0 and a best one
    of 5. *)
Theorem streaks_as_described (h : list Health.t) (s : list Screen.t) :
  h <> [] -> s <> [] -> chronological Date_time h ->
  streaksAsDescribed Date_time h s.
Proof.
  intros Hh Hs Hc. unfold streaksAsDescribed.
  destruct h as [| d h]; [congruence |]. destruct s as [| r s]; [congruence |].
  unfold computeMetrics, metricsFrom.
  cbn [streaks current best Habit.workout Habit.sleep Habit.steps].
  rewrite newestFirst_chronological, oldestFirst_chronological by exact Hc.
  split; [| split].
  - repeat split; apply streakLoop_trailing.
  - repeat split; apply bestLoop_longest.
  - intros Hw.
    destruct h as [| d2 [| d3 [| d4 [| d5 [| d6 [| d7 h]]]]]]; try discriminate Hw.
    injection Hw as H1 H2 H3 H4 H5 H6.
    unfold bestLoop, bestStep, workoutOk. cbn [rev app streakLoop fold_left].
    rewrite H1, H2, H3, H4, H5, H6. split; reflexivity.
Qed.
End StreakCounters.

Lemma fiveThenRest_chronological : chronological Iso.time fiveThenRest.
Proof. unfold chronological, fiveThenRest. solve_chronological. Qed.

Lemma current_streak_within_best_witness :
  distinctDates Iso.time fiveThenRest /\
  streaksOrdered (computeMetrics Iso.time fiveThenRest oneScreenRow).
Proof.
  assert (H : distinctDates Iso.time fiveThenRest)
    by (apply chronological_distinct, fiveThenRest_chronological).
  split; [exact H |].
  apply (current_streak_within_best Iso.time fiveThenRest oneScreenRow H).
Defined.

(** With two records on one date the order of the counters can fail: the
    hypothesis of C4 is needed. *)
Example repeated_date_streaks :
  let st := streaks (computeMetrics Iso.time repeatedDate oneScreenRow) in
  Habit.workout (current st) = 2 /\ Habit.workout (best st) = 1.
Proof. split; reflexivity. Qed.

(** C2 as stated fails: with an empty screen-time array the guard returns
    the all-zero shape, so five workout days followed by a rest day report a
    best streak of 0, not 5. *)
Lemma streaks_as_described_needs_screen_data :
  fiveThenRest <> [] /\ chronological Iso.time fiveThenRest /\
  ~ streaksAsDescribed Iso.time fiveThenRest [].
Proof.
  split; [discriminate |]. split; [apply fiveThenRest_chronological |].
  intros (_ & _ & Hex). destruct (Hex eq_refl) as [_ Hbest]. discriminate Hbest.
Qed.

Lemma streaks_as_described_witness :
  fiveThenRest <> [] /\ oneScreenRow <> [] /\ chronological Iso.time fiveThenRest /\
  streaksAsDescribed Iso.time fiveThenRest oneScreenRow.
Proof.
  assert (Hh : fiveThenRest <> []) by discriminate.
  assert (Hs : oneScreenRow <> []) by discriminate.
  assert (Hc : chronological Iso.time fiveThenRest) by apply fiveThenRest_chronological.
  split; [exact Hh |]. split; [exact Hs |]. split; [exact Hc |].
  apply (streaks_as_described Iso.time fiveThenRest oneScreenRow Hh Hs Hc).
Defined.

(** ** Sums *)

Section SumFacts.
Context {A : Type}.
Variable f : A -> Z.

Lemma sumBy_from (l : list A) (n : Z) :
  fold_left (fun sum d => sum + f d) l n = n + Arr.sumBy f l.
Proof.
  unfold Arr.sumBy. revert n. induction l as [| x l IH]; intros n; simpl; [lia |].
  rewrite (IH (n + f x)), (IH (f x)). lia.
Qed.

Lemma sumBy_cons (x : A) (l : list A) : Arr.sumBy f (x :: l) = f x + Arr.sumBy f l.
Proof. unfold Arr.sumBy at 1. simpl. apply sumBy_from. Qed.


Lemma sumBy_perm (l1 l2 : list A) :
  Permutation l1 l2 -> Arr.sumBy f l1 = Arr.sumBy f l2.
Proof.
  induction 1; rewrite ?sumBy_cons; lia.
Qed.

Lemma sumBy_nonneg (l : list A) :
  Forall (fun x => 0 <= f x) l -> 0 <= Arr.sumBy f l.
Proof.
  induction 1 as [| x l Hx _ IH]; [reflexivity |]. rewrite sumBy_cons. lia.
Qed.
End SumFacts.

(** ** Objects used as dictionaries *)

Section ObjFacts.
Lemma get_set_same (o : Obj.t) (k : string) (v : Z) : Obj.get (Obj.set o k v) k = Some v.
Proof.
  induction o as [| [k' v'] o IH]; simpl.
  - now rewrite String.eqb_refl.
  - destruct (String.eqb k k') eqn:E; simpl; rewrite E; [reflexivity | exact IH].
Qed.

Lemma get_set_other (o : Obj.t) (k k' : string) (v : Z) :
  k <> k' -> Obj.get (Obj.set o k v) k' = Obj.get o k'.
Proof.
  intros Hne. induction o as [| [k0 v0] o IH]; simpl.
  - destruct (String.eqb_spec k' k); [congruence | reflexivity].
  - destruct (String.eqb_spec k k0) as [-> | Hk]; simpl.
    + destruct (String.eqb_spec k' k0); [congruence | reflexivity].
    + now rewrite IH.
Qed.

Lemma get_none_keys (o : Obj.t) (k : string) :
  Obj.get o k = None <-> ~ In k (map fst o).
Proof.
  induction o as [| [k' v'] o IH]; simpl; [tauto |].
  destruct (String.eqb_spec k k') as [-> | Hk].
  - split; [discriminate | tauto].
  - rewrite IH. split; [intros H [E | Hin]; [congruence | tauto] | tauto].
Qed.

Lemma keys_set (o : Obj.t) (k : string) (v : Z) :
  map fst (Obj.set o k v) =
  match Obj.get o k with
  | Some _ => map fst o
  | None => map fst o ++ [k]
  end.
Proof.
  induction o as [| [k' v'] o IH]; simpl; [reflexivity |].
  destruct (String.eqb k k'); simpl; [reflexivity |].
  rewrite IH. now destruct (Obj.get o k).
Qed.

Lemma set_nodup (o : Obj.t) (k : string) (v : Z) :
  NoDup (map fst o) -> NoDup (map fst (Obj.set o k v)).
Proof.
  intros Hnd. rewrite keys_set. destruct (Obj.get o k) eqn:E; [exact Hnd |].
  apply get_none_keys in E.
  apply (Permutation_NoDup (Permutation_cons_append (map fst o) k)).
  now constructor.
Qed.

Lemma get_of_In (o : Obj.t) (k : string) (v : Z) :
  NoDup (map fst o) -> In (k, v) o -> Obj.get o k = Some v.
Proof.
  induction o as [| [k' v'] o IH]; simpl; [tauto |].
  intros Hnd [E | Hin].
  - injection E as -> ->. now rewrite String.eqb_refl.
  - inversion Hnd as [| ? ? Hnotin Hnd']; subst.
    destruct (String.eqb_spec k k') as [-> | Hk]; [| now apply IH].
    exfalso. apply Hnotin. change k' with (fst (k', v)). now apply in_map.
Qed.

Lemma filter_split_perm {A : Type} (p : A -> bool) (l : list A) :
  Permutation (filter p l ++ filter (fun x => negb (p x)) l) l.
Proof.
  induction l as [| x l IH]; simpl; [constructor |].
  destruct (p x); simpl.
  - now constructor.
  - rewrite <- Permutation_middle. now constructor.
Qed.

Lemma entries_perm (o : Obj.t) : Permutation (Obj.entries o) o.
Proof.
  unfold Obj.entries. rewrite sort_perm. apply filter_split_perm.
Qed.

Lemma entries_plain (o : Obj.t) :
  Forall (fun e => Obj.arrayIndex (fst e) = None) o -> Obj.entries o = o.
Proof.
  intros Hall. unfold Obj.entries.
  assert (E : forall e, In e o -> Obj.isIndex e = false).
  { rewrite Forall_forall in Hall. intros e He. unfold Obj.isIndex.
    now rewrite (Hall e He). }
  assert (E1 : filter Obj.isIndex o = []).
  { clear Hall. induction o as [| e o IH]; [reflexivity |].
    simpl. rewrite (E e (or_introl eq_refl)). apply IH.
    intros e' He'. apply E. now right. }
  assert (E2 : filter (fun e => negb (Obj.isIndex e)) o = o).
  { clear Hall E1. induction o as [| e o IH]; [reflexivity |].
    simpl. rewrite (E e (or_introl eq_refl)). simpl. f_equal. apply IH.
    intros e' He'. apply E. now right. }
  now rewrite E1, E2.
Qed.
End ObjFacts.

Lemma includes_In (l : list string) (s : string) : Arr.includes l s = true <-> In s l.
Proof.
  unfold Arr.includes. rewrite existsb_exists. split.
  - intros (x & Hx & E). apply String.eqb_eq in E. now subst.
  - intros H. exists s. split; [exact H | apply String.eqb_refl].
Qed.

Lemma includes_get (o : Obj.t) (k : string) :
  Arr.includes (map fst o) k = match Obj.get o k with Some _ => true | None => false end.
Proof.
  destruct (Obj.get o k) eqn:E.
  - apply includes_In. destruct (in_dec string_dec k (map fst o)) as [H | H]; [exact H |].
    apply get_none_keys in H. congruence.
  - apply get_none_keys in E. destruct (Arr.includes (map fst o) k) eqn:I; [| reflexivity].
    apply includes_In in I. contradiction.
Qed.



Section TallyFacts.
Context {A : Type}.
Variable key : A -> string.
Variable val : A -> Z.

Let step (o : Obj.t) (x : A) : Obj.t := Obj.bump o (key x) (val x).

Lemma totalFor_cons (k : string) (x : A) (l : list A) :
  totalFor key val k (x :: l) =
  if String.eqb (key x) k then val x + totalFor key val k l else totalFor key val k l.
Proof.
  unfold totalFor. simpl. destruct (String.eqb (key x) k); [apply sumBy_cons | reflexivity].
Qed.

Lemma tally_get_from (l : list A) (o : Obj.t) (k : string) :
  Obj.get (fold_left step l o) k =
  match Obj.get o k with
  | Some v => Some (v + totalFor key val k l)
  | None => if existsb (fun x => String.eqb (key x) k) l
            then Some (totalFor key val k l) else None
  end.
Proof.
  revert o. induction l as [| x l IH]; intros o.
  - simpl. unfold totalFor, Arr.sumBy. simpl.
    destruct (Obj.get o k); [f_equal; lia | reflexivity].
  - cbn [fold_left existsb]. rewrite IH, totalFor_cons. unfold step, Obj.bump.
    destruct (String.eqb_spec (key x) k) as [E | Hne].
    + rewrite E, get_set_same. simpl.
      destruct (Obj.get o k); simpl; f_equal; lia.
    + rewrite get_set_other by exact Hne. simpl. reflexivity.
Qed.

Lemma tally_nodup_from (l : list A) (o : Obj.t) :
  NoDup (map fst o) -> NoDup (map fst (fold_left step l o)).
Proof.
  revert o. induction l as [| x l IH]; intros o Hnd; [exact Hnd |].
  simpl. apply IH. now apply set_nodup.
Qed.

Lemma tally_keys_from (l : list A) (o : Obj.t) :
  map fst (fold_left step l o) = map fst o ++ Arr.unique_from (map fst o) (map key l).
Proof.
  revert o. induction l as [| x l IH]; intros o.
  - simpl. now rewrite app_nil_r.
  - cbn [fold_left map Arr.unique_from]. rewrite IH. unfold step, Obj.bump.
    rewrite keys_set, includes_get.
    destruct (Obj.get o (key x)); [reflexivity |].
    now rewrite <- app_assoc.
Qed.

Lemma existsb_key (k : string) (l : list A) :
  existsb (fun x => String.eqb (key x) k) l = true <-> In k (map key l).
Proof.
  rewrite existsb_exists, in_map_iff. split.
  - intros (x & Hx & E). apply String.eqb_eq in E. now exists x.
  - intros (x & E & Hx). exists x. split; [exact Hx | now apply String.eqb_eq].
Qed.

Lemma tally_get (l : list A) (k : string) :
  Obj.get (Obj.tally key val l) k =
  if existsb (fun x => String.eqb (key x) k) l then Some (totalFor key val k l) else None.
Proof. unfold Obj.tally. apply (tally_get_from l Obj.empty k). Qed.

Lemma tally_nodup (l : list A) : NoDup (map fst (Obj.tally key val l)).
Proof. apply (tally_nodup_from l Obj.empty). constructor. Qed.

Lemma tally_keys (l : list A) : map fst (Obj.tally key val l) = Arr.unique (map key l).
Proof. apply (tally_keys_from l Obj.empty). Qed.

Lemma tally_In (l : list A) (k : string) (v : Z) :
  In (k, v) (Obj.tally key val l) -> v = totalFor key val k l /\ In k (map key l).
Proof.
  intros Hin. apply get_of_In in Hin; [| apply tally_nodup].
  rewrite tally_get in Hin.
  destruct (existsb (fun x => String.eqb (key x) k) l) eqn:E; [| discriminate].
  apply existsb_key in E. injection Hin as <-. now split.
Qed.

Lemma tally_has_key (l : list A) (k : string) :
  In k (map fst (Obj.tally key val l)) <-> In k (map key l).
Proof.
  split.
  - intros Hin. apply in_map_iff in Hin as ([k' v] & E & Hin). simpl in E. subst k'.
    now apply tally_In in Hin.
  - intros Hin. apply existsb_key in Hin.
    destruct (in_dec string_dec k (map fst (Obj.tally key val l))) as [H | H]; [exact H |].
    apply get_none_keys in H. rewrite tally_get, Hin in H. discriminate.
Qed.

(** The object holds, in first-occurrence order of the keys, each key
    with its total. *)
Lemma tally_as_map (l : list A) :
  Obj.tally key val l = map (fun k => (k, totalFor key val k l)) (Arr.unique (map key l)).
Proof.
  rewrite <- tally_keys.
  assert (H : forall e, In e (Obj.tally key val l) -> snd e = totalFor key val (fst e) l).
  { intros [k v] Hin. now apply tally_In in Hin. }
  induction (Obj.tally key val l) as [| [k v] o IH]; [reflexivity |].
  simpl. rewrite <- IH by (intros e He; apply H; now right).
  pose proof (H (k, v) (or_introl eq_refl)) as Hk. simpl in Hk. now rewrite <- Hk.
Qed.
End TallyFacts.

(** ** The ranking of the apps (C6, C8) *)

Lemma slice_prefix {A : Type} (l : list A) (n : nat) :
  Arr.slice l 0 (Some (Z.of_nat n)) = firstn n l.
Proof.
  unfold Arr.slice, Arr.relIndex. change (0 <? 0) with false. cbv iota.
  destruct (Z.ltb_spec (Z.of_nat n) 0) as [Hlt | _]; [lia |].
  replace (Z.to_nat (Z.min 0 (Z.of_nat (List.length l)))) with 0%nat by lia.
  replace (Z.to_nat (Z.min (Z.of_nat n) (Z.of_nat (List.length l))
                     - Z.min 0 (Z.of_nat (List.length l))))
    with (Nat.min n (List.length l)) by lia.
  cbn [skipn].
  destruct (Nat.le_gt_cases n (List.length l)) as [Hle | Hgt].
  - now rewrite Nat.min_l by exact Hle.
  - rewrite Nat.min_r by lia. rewrite !firstn_all2 by lia. reflexivity.
Qed.

Lemma computeAllAppTotals_sort (data : list Screen.t) :
  computeAllAppTotals data =
  Arr.sort byMinutesDesc (Obj.entries (Obj.tally Screen.app Screen.minutes data)).
Proof.
  unfold computeAllAppTotals. f_equal.
  rewrite <- (map_id (Obj.entries _)) at 2.
  apply map_ext. now intros [a m].
Qed.

Lemma computeAllAppTotals_perm (data : list Screen.t) :
  Permutation (computeAllAppTotals data) (Obj.tally Screen.app Screen.minutes data).
Proof.
  rewrite computeAllAppTotals_sort, sort_perm. apply entries_perm.
Qed.

Lemma ranking_of_totals (data : list Screen.t) :
  rankingOfTotals data (computeAllAppTotals data).
Proof.
  pose proof (computeAllAppTotals_perm data) as Hp.
  repeat split.
  - eapply Permutation_NoDup; [symmetry; apply Permutation_map; exact Hp |].
    apply tally_nodup.
  - intros Hin. apply (tally_has_key Screen.app Screen.minutes).
    eapply Permutation_in; [apply Permutation_map; exact Hp | exact Hin].
  - intros Hin. apply (tally_has_key Screen.app Screen.minutes) in Hin.
    eapply Permutation_in; [symmetry; apply Permutation_map; exact Hp | exact Hin].
  - intros a m Hin. apply (Permutation_in _ Hp) in Hin.
    now apply tally_In in Hin.
  - rewrite computeAllAppTotals_sort.
    eapply StronglySorted_weaken;
      [| apply (sort_key_sorted (fun e : string * Z => - snd e) byMinutesDesc)].
    + intros a b Hab. cbv beta in Hab. lia.
    + intros x y. unfold byMinutesDesc. lia.
Qed.

Lemma ranking_ties_follow_entries (data : list Screen.t) (k : Z) :
  filter (fun e => snd e =? k) (computeAllAppTotals data) =
  filter (fun e => snd e =? k) (Obj.entries (Obj.tally Screen.app Screen.minutes data)).
Proof.
  rewrite computeAllAppTotals_sort. apply sort_stable.
  intros x y Hx Hy. apply Z.eqb_eq in Hx, Hy. unfold byMinutesDesc. lia.
Qed.

Lemma ranking_ties_plain (data : list Screen.t) :
  plainAppNames data -> tiesInFirstOccurrenceOrder data (computeAllAppTotals data).
Proof.
  intros Hplain k. rewrite ranking_ties_follow_entries.
  rewrite entries_plain.
  - rewrite tally_as_map, filter_map_swap, map_map. simpl. apply map_id.
  - rewrite Forall_forall. intros [a m] Hin. simpl.
    apply tally_In in Hin as [_ Hin]. apply in_map_iff in Hin as (r & <- & Hr).
    unfold plainAppNames in Hplain. rewrite Forall_forall in Hplain. now apply Hplain.
Qed.

Lemma topApps_prefix (Date_time : string -> Z) (h : list Health.t) (data : list Screen.t) :
  h <> [] -> data <> [] ->
  topApps (screenTime (computeMetrics Date_time h data)) = firstn 10 (computeAllAppTotals data).
Proof.
  intros Hh Hd. destruct h; [congruence |]. destruct data as [| r data]; [congruence |].
  unfold computeMetrics, metricsFrom. cbn [screenTime topApps].
  rewrite computeAllAppTotals_sort. apply (slice_prefix _ 10).
Qed.

(** C6 as stated fails: "2048" is an array index, so [Object.entries]
    lists it before "Zed" although "Zed" was recorded first, and the tie at
    100 minutes is kept in that order. *)
Lemma ranking_tie_not_first_occurrence :
  computeAllAppTotals tiedRows = [("2048"%string, 100); ("Zed"%string, 100)] /\
  ~ rankingAsDescribed tiedRows (computeAllAppTotals tiedRows).
Proof.
  split; [reflexivity |].
  intros [_ Hties]. specialize (Hties 100). discriminate Hties.
Qed.

(** C6, amended.  For app names that are neither array indices nor
    members of [Object.prototype], the ranking of [computeAllAppTotals] has
    one entry per app of the input, each with the sum of that app's
    minutes, in descending order of minutes, with ties in first-occurrence
    order; [topApps] is its first ten entries. *)
Theorem ranking_as_described (data : list Screen.t) :
  plainAppNames data ->
  rankingAsDescribed data (computeAllAppTotals data) /\
  (forall (Date_time : string -> Z) (h : list Health.t),
      h <> [] -> data <> [] ->
      topApps (screenTime (computeMetrics Date_time h data)) =
      firstn 10 (computeAllAppTotals data)).
Proof.
  intros Hplain. split.
  - split; [apply ranking_of_totals | now apply ranking_ties_plain].
  - intros Date_time h. apply topApps_prefix.
Qed.

Lemma ranking_as_described_witness :
  plainAppNames rowsABC /\
  rankingAsDescribed rowsABC (computeAllAppTotals rowsABC) /\
  (forall (Date_time : string -> Z) (h : list Health.t),
      h <> [] -> rowsABC <> [] ->
      topApps (screenTime (computeMetrics Date_time h rowsABC)) =
      firstn 10 (computeAllAppTotals rowsABC)).
Proof.
  assert (H : plainAppNames rowsABC).
  { repeat (constructor; [split; [reflexivity | simpl; intuition discriminate] |]).
    constructor. }
  split; [exact H | apply (ranking_as_described rowsABC H)].
Defined.

Lemma totalFor_absent {A : Type} (key : A -> string) (val : A -> Z) (k : string)
    (l : list A) :
  ~ In k (map key l) -> totalFor key val k l = 0.
Proof.
  intros Hnot. unfold totalFor.
  replace (filter (fun x => String.eqb (key x) k) l) with (@nil A); [reflexivity |].
  symmetry. induction l as [| x l IH]; [reflexivity |].
  simpl. destruct (String.eqb_spec (key x) k) as [E | Hne].
  - exfalso. apply Hnot. left. exact E.
  - apply IH. intros Hin. apply Hnot. now right.
Qed.

Lemma mostUsedQuestion_flags :
  let q := Str.toLowerCase mostUsedQuestion in
  Str.includes q "most" = true /\ Str.includes q "least" = false /\
  Str.includes q "app" = true /\ Str.includes q "use" = true.
Proof. repeat split. Qed.

Lemma ranking_head_ABC (data : list Screen.t) :
  totalsABC data -> nth_error (computeAllAppTotals data) 0 = Some ("B"%string, 250).
Proof.
  intros (Hall & HA & HB & HC).
  destruct (ranking_of_totals data) as (_ & Hkeys & Hsum & Hsorted).
  assert (HinB : In "B"%string (map Screen.app data)).
  { destruct (in_dec string_dec "B"%string (map Screen.app data)) as [H | H]; [exact H |].
    apply (totalFor_absent Screen.app Screen.minutes) in H.
    change (appMinutes "B" data = 0) in H. lia. }
  apply Hkeys in HinB. apply in_map_iff in HinB as ([b mb] & Eb & HinB).
  simpl in Eb. subst b. pose proof (Hsum _ _ HinB) as Emb. rewrite HB in Emb. subst mb.
  destruct (computeAllAppTotals data) as [| [a m] rest]; [contradiction |].
  simpl. f_equal.
  assert (Ha : In a ["A"; "B"; "C"]%string).
  { assert (Hin : In a (map Screen.app data)) by (apply Hkeys; now left).
    apply in_map_iff in Hin as (r & <- & Hr).
    rewrite Forall_forall in Hall. now apply Hall. }
  pose proof (Hsum a m (or_introl eq_refl)) as Em.
  assert (Hle : 250 <= m).
  { destruct HinB as [E | Hin]; [injection E as _ <-; lia |].
    apply StronglySorted_inv in Hsorted as [_ Hhd].
    rewrite Forall_forall in Hhd. apply (Hhd _ Hin). }
  destruct Ha as [<- | [<- | [<- | []]]]; [lia | | lia].
  f_equal. lia.
Qed.

(** C8. On screen-time rows whose per-app totals are A:100, B:250, C:40 the
    question "Which app do I use the most?" contains "most" and "use" once
    lowercased, so the most/least-used rule fires; the rule ranks all the
    apps and reports [mostUsedApp = { app: "B", minutes: 250 }]. *)
Theorem most_used_app_example (Date_getDay : string -> Z) (metrics : Metrics)
    (healthData : list Health.t) (data : list Screen.t) :
  totalsABC data ->
  let ins := extractComputedInsights Date_getDay mostUsedQuestion metrics healthData data in
  Str.includes (Str.toLowerCase mostUsedQuestion) "most" = true /\
  Str.includes (Str.toLowerCase mostUsedQuestion) "use" = true /\
  Insights.mostUsedApp ins = Some (Some ("B"%string, 250)) /\
  Insights.topApps ins = Some (firstn 5 (computeAllAppTotals data)) /\
  rankingOfTotals data (computeAllAppTotals data).
Proof.
  intros Habc ins. destruct mostUsedQuestion_flags as (Hmost & Hleast & Happ & Huse).
  cbv zeta in Hmost, Hleast, Happ, Huse.
  split; [exact Hmost |]. split; [exact Huse |].
  subst ins. unfold extractComputedInsights.
  cbn [Insights.mostUsedApp Insights.topApps].
  rewrite Hmost, Hleast, Happ, Huse. cbn [orb andb].
  split; [| split].
  - f_equal. now apply ranking_head_ABC.
  - f_equal. apply (slice_prefix _ 5).
  - apply ranking_of_totals.
Qed.

Lemma most_used_app_example_witness :
  totalsABC rowsABC /\
  let ins := extractComputedInsights Iso.getDay mostUsedQuestion zeroMetrics
                                     fiveThenRest rowsABC in
  Str.includes (Str.toLowerCase mostUsedQuestion) "most" = true /\
  Str.includes (Str.toLowerCase mostUsedQuestion) "use" = true /\
  Insights.mostUsedApp ins = Some (Some ("B"%string, 250)) /\
  Insights.topApps ins = Some (firstn 5 (computeAllAppTotals rowsABC)) /\
  rankingOfTotals rowsABC (computeAllAppTotals rowsABC).
Proof.
  assert (H : totalsABC rowsABC).
  { split; [| repeat split].
    repeat (constructor; [simpl; auto 6 |]). constructor. }
  split; [exact H |].
  apply (most_used_app_example Iso.getDay zeroMetrics fiveThenRest rowsABC H).
Defined.

(** ** The wellness score (C1, C5) *)

Lemma set_sum (o : Obj.t) (k : string) (v : Z) :
  Arr.sumBy snd (Obj.set o k v) = Arr.sumBy snd o - or_zero (Obj.get o k) + v.
Proof.
  induction o as [| [k' v'] o IH]; simpl.
  - unfold Arr.sumBy. simpl. lia.
  - destruct (String.eqb k k'); rewrite !sumBy_cons; simpl; [lia |].
    rewrite IH. lia.
Qed.

Lemma tally_sum {A : Type} (key : A -> string) (val : A -> Z) (l : list A) :
  Arr.sumBy snd (Obj.tally key val l) = Arr.sumBy val l.
Proof.
  unfold Obj.tally.
  assert (H : forall o, Arr.sumBy snd (fold_left (fun o item => Obj.bump o (key item) (val item)) l o)
                        = Arr.sumBy snd o + Arr.sumBy val l).
  { induction l as [| x l IH]; intros o; simpl.
    - unfold Arr.sumBy at 3. simpl. lia.
    - rewrite IH, sumBy_cons. unfold Obj.bump. rewrite set_sum. lia. }
  rewrite H. reflexivity.
Qed.

Lemma unique_nonempty (x : string) (l : list string) :
  (0 < List.length (Arr.unique (x :: l)))%nat.
Proof. unfold Arr.unique. simpl. lia. Qed.

Lemma dailyTotals_sum (s : list Screen.t) :
  Arr.sumBy snd (Arr.sort byDateString (Obj.entries (Obj.tally Screen.date Screen.minutes s)))
  = Arr.sumBy Screen.minutes s.
Proof.
  rewrite (sumBy_perm snd _ _ (sort_perm byDateString _)).
  rewrite (sumBy_perm snd _ _ (entries_perm _)). apply tally_sum.
Qed.

Lemma dailyTotals_length (s : list Screen.t) :
  List.length (Arr.sort byDateString (Obj.entries (Obj.tally Screen.date Screen.minutes s)))
  = List.length (Arr.unique (map Screen.date s)).
Proof.
  rewrite sort_length, (Permutation_length (entries_perm _)).
  rewrite <- (tally_keys Screen.date Screen.minutes). now rewrite length_map.
Qed.

Lemma averages_of (Date_time : string -> Z) (h : list Health.t) (s : list Screen.t) :
  h <> [] -> s <> [] -> averagesOf h s (computeMetrics Date_time h s).
Proof.
  intros Hh Hs. destruct h as [| d h]; [congruence |]. destruct s as [| r s]; [congruence |].
  unfold averagesOf, computeMetrics, metricsFrom.
  cbn [health screenTime avgSteps avgSleep avgWorkout avgDaily].
  repeat split. unfold average. now rewrite dailyTotals_sum, dailyTotals_length.
Qed.






Lemma inject_Z_nonneg (z : Z) : 0 <= z -> (0 <= inject_Z z)%Q.
Proof. intros H. unfold Qle. simpl. lia. Qed.

Lemma ratio_nonneg (a b : Z) : 0 <= a -> 0 <= b -> (0 <= inject_Z a / inject_Z b * 100)%Q.
Proof.
  intros Ha Hb. apply Qmult_le_0_compat; [| discriminate].
  apply Qmult_le_0_compat; [now apply inject_Z_nonneg |].
  apply Qinv_le_0_compat. now apply inject_Z_nonneg.
Qed.

Lemma subScore_bounds (avg ideal : Z) :
  0 <= avg -> 0 <= ideal -> (0 <= subScore avg ideal <= 100)%Q.
Proof.
  intros Ha Hi. unfold subScore, Math_min. split.
  - apply Q.min_glb; [discriminate | now apply ratio_nonneg].
  - apply Q.le_min_l.
Qed.

Lemma inverseSubScore_bounds (avgDaily : Z) :
  0 <= avgDaily -> (0 <= inverseSubScore avgDaily <= 100)%Q.
Proof.
  intros Ha. unfold inverseSubScore, Math_min. split.
  - apply Q.min_glb; [discriminate |]. apply ratio_nonneg; [discriminate |].
    unfold or_one. destruct (avgDaily =? 0); lia.
  - apply Q.le_min_l.
Qed.

Lemma subScore_full (avg ideal : Z) :
  0 < ideal -> ideal <= avg -> (subScore avg ideal == 100)%Q.
Proof.
  intros Hi Ha. unfold subScore, Math_min. apply Q.min_l.
  setoid_replace (100 : Q) with (1 * 100)%Q at 1 by reflexivity.
  apply Qmult_le_compat_r; [| discriminate].
  apply Qle_shift_div_l.
  - unfold Qlt. simpl. lia.
  - rewrite Qmult_1_l. unfold Qle. simpl. lia.
Qed.

Lemma average_nonneg {A : Type} (f : A -> Z) (l : list A) :
  l <> [] -> Forall (fun x => 0 <= f x) l -> 0 <= average f l.
Proof.
  intros Hne Hall. unfold average. apply roundedMean_nonneg.
  - destruct l; [congruence | simpl; lia].
  - now apply sumBy_nonneg.
Qed.

(** C5. On inputs without negative steps, sleep, workout or screen-time
    minutes, each of the four sub-scores of [computeMetrics] lies between 0
    and 100; a steps average of 10000 or more, 50000 say, gives a steps
    sub-score of 100. *)
Theorem sub_scores_clamped (Date_time : string -> Z)
    (h : list Health.t) (s : list Screen.t) :
  nonNegative h s ->
  let m := computeMetrics Date_time h s in
  subScoresClamped m /\
  (10000 <= avgSteps (health m) -> (stepsScore (wellness m) == 100)%Q).
Proof.
  intros [Hh Hs] m. subst m.
  destruct h as [| d h]; [cbn; repeat split; try discriminate; lia |].
  destruct s as [| r s]; [cbn; repeat split; try discriminate; lia |].
  pose proof (averages_of Date_time (d :: h) (r :: s)) as Havg.
  destruct Havg as (_ & _ & _ & Edaily); try discriminate.
  unfold subScoresClamped, computeMetrics, metricsFrom in *.
  cbn [wellness health screenTime stepsScore sleepScore workoutScore screenTimeScore
       avgSteps avgDaily] in *.
  assert (Hne : d :: h <> []) by discriminate.
  assert (Hfield : forall f : Health.t -> Z,
             Forall (fun x => 0 <= f x) (d :: h) ->
             (0 <= subScore (average f (d :: h)) idealSteps <= 100)%Q /\
             (0 <= subScore (average f (d :: h)) idealSleep <= 100)%Q /\
             (0 <= subScore (average f (d :: h)) idealWorkout <= 100)%Q).
  { intros f Hf. pose proof (average_nonneg f (d :: h) Hne Hf) as Hnn.
    repeat split; apply subScore_bounds; try exact Hnn; discriminate. }
  assert (Hpick : forall (f : Health.t -> Z),
             (forall x, (0 <= Health.steps x /\ 0 <= Health.sleep x /\ 0 <= Health.workout x)
                        -> 0 <= f x) ->
             Forall (fun x => 0 <= f x) (d :: h)).
  { intros f Hf. eapply Forall_impl; [| exact Hh]. exact Hf. }
  split; [split; [| split; [| split]] |].
  - apply (Hfield Health.steps), Hpick. tauto.
  - apply (Hfield Health.sleep), Hpick. tauto.
  - apply (Hfield Health.workout), Hpick. tauto.
  - apply inverseSubScore_bounds. rewrite Edaily. apply roundedMean_nonneg.
    + apply unique_nonempty.
    + now apply sumBy_nonneg.
  - intros Hbig. apply subScore_full; [reflexivity | exact Hbig].
Qed.

Lemma sub_scores_clamped_witness :
  nonNegative marathonDays idealRows /\
  subScoresClamped (computeMetrics Iso.time marathonDays idealRows) /\
  (10000 <= avgSteps (health (computeMetrics Iso.time marathonDays idealRows)) ->
   (stepsScore (wellness (computeMetrics Iso.time marathonDays idealRows)) == 100)%Q).
Proof.
  assert (H : nonNegative marathonDays idealRows).
  { split; repeat constructor; simpl; lia. }
  split; [exact H |].
  apply (sub_scores_clamped Iso.time marathonDays idealRows H).
Defined.

Example marathon_steps :
  avgSteps (health (computeMetrics Iso.time marathonDays idealRows)) = 50000.
Proof. reflexivity. Qed.

(** ** The weekday/weekend split (C9) *)

Lemma sumBy_map {A B : Type} (g : A -> B) (f : B -> Z) (l : list A) :
  Arr.sumBy f (map g l) = Arr.sumBy (fun x => f (g x)) l.
Proof.
  induction l as [| x l IH]; [reflexivity |].
  simpl. rewrite !sumBy_cons, IH. reflexivity.
Qed.


Lemma localeCompare_total (a b : string) :
  0 < Str.localeCompare a b -> Str.localeCompare b a <= 0.
Proof.
  unfold Str.localeCompare. rewrite (String.compare_antisym a b).
  destruct (String.compare b a); simpl; lia.
Qed.


Section SplitFacts.
Variable Date_getDay : string -> Z.





End SplitFacts.


(** ** [computeMetrics] leaves its arguments alone (C10) *)

Section StoreFacts.
Lemma write_length (st : Store.t) (r : Store.ref) (c : Store.cell) :
  List.length (Store.write st r c) = List.length st.
Proof.
  revert r. induction st as [| c' st IH]; intros r; [reflexivity |].
  destruct r; simpl; [reflexivity | now rewrite IH].
Qed.

Lemma write_same (st : Store.t) (r : Store.ref) (c : Store.cell) :
  (r < List.length st)%nat -> nth_error (Store.write st r c) r = Some c.
Proof.
  revert r. induction st as [| c' st IH]; intros r Hr; simpl in Hr; [lia |].
  destruct r; simpl; [reflexivity |]. apply IH. lia.
Qed.

Lemma write_other (st : Store.t) (r r' : Store.ref) (c : Store.cell) :
  r <> r' -> nth_error (Store.write st r c) r' = nth_error st r'.
Proof.
  revert r r'. induction st as [| c' st IH]; intros r r' Hne; [reflexivity |].
  destruct r, r'; simpl; try reflexivity; try congruence.
  apply IH. congruence.
Qed.

Lemma alloc_new (st : Store.t) (c : Store.cell) :
  nth_error (snd (Store.alloc st c)) (fst (Store.alloc st c)) = Some c.
Proof.
  simpl. rewrite nth_error_app2 by lia. now rewrite Nat.sub_diag.
Qed.

(** A copy made by [[...arr]] and then sorted: the old cells are as
    before, and the new cell holds the sorted elements. *)
Lemma spread_sort (cmp : Health.t -> Health.t -> Z) (st : Store.t) (r : Store.ref) :
  let copy := fst (Store.spread st r) in
  let st' := Store.sortAt cmp (snd (Store.spread st r)) copy in
  copy = List.length st /\
  List.length st' = S (List.length st) /\
  (forall r', (r' < List.length st)%nat -> nth_error st' r' = nth_error st r') /\
  Store.healthAt st' copy = Arr.sort cmp (Store.healthAt st r).
Proof.
  cbv zeta. unfold Store.spread, Store.sortAt.
  set (c := Store.HealthArr (Store.healthAt st r)).
  assert (Hcopy : Store.healthAt (snd (Store.alloc st c)) (fst (Store.alloc st c))
                  = Store.healthAt st r).
  { unfold Store.healthAt at 1. now rewrite alloc_new. }
  rewrite Hcopy. cbn [fst snd Store.alloc].
  split; [reflexivity |]. split; [| split].
  - rewrite write_length, length_app. simpl. lia.
  - intros r' Hr'. rewrite write_other by lia. now apply nth_error_app1.
  - unfold Store.healthAt at 1. rewrite write_same; [reflexivity |].
    rewrite length_app. simpl. lia.
Qed.
End StoreFacts.

(** C10. [computeMetrics] never mutates its arguments: whatever the store
    and the two references, every array alive before the call holds the
    same elements after it, the health array and the screen-time array in
    particular; the sorts act on the two fresh copies.  The value returned
    is [computeMetrics] of the contents. *)
Theorem computeMetrics_frame (Date_time : string -> Z)
    (healthRef screenRef : Store.ref) (st : Store.t) :
  let result := computeMetrics_st Date_time healthRef screenRef st in
  (forall r, (r < List.length st)%nat -> nth_error (snd result) r = nth_error st r) /\
  Store.healthAt (snd result) healthRef = Store.healthAt st healthRef /\
  Store.screenAt (snd result) screenRef = Store.screenAt st screenRef /\
  fst result = computeMetrics Date_time (Store.healthAt st healthRef)
                                        (Store.screenAt st screenRef).
Proof.
  cbv zeta. unfold computeMetrics_st, computeMetrics.
  destruct (Store.healthAt st healthRef) as [| d h] eqn:Eh;
    [cbn [fst snd]; repeat split; auto |].
  destruct (Store.screenAt st screenRef) as [| x s] eqn:Es;
    [cbn [fst snd]; repeat split; auto |].
  assert (Hh : (healthRef < List.length st)%nat).
  { apply nth_error_Some. unfold Store.healthAt in Eh.
    destruct (nth_error st healthRef); [discriminate | discriminate Eh]. }
  assert (Hs : (screenRef < List.length st)%nat).
  { apply nth_error_Some. unfold Store.screenAt in Es.
    destruct (nth_error st screenRef); [discriminate | discriminate Es]. }
  pose proof (spread_sort (newestFirst Date_time) st healthRef) as H1.
  cbv zeta in H1.
  destruct (Store.spread st healthRef) as [copy1 st1] eqn:E1. cbn [fst snd] in H1.
  set (st2 := Store.sortAt (newestFirst Date_time) st1 copy1) in *.
  destruct H1 as (Hc1 & Hl2 & Hf2 & Hv2).
  pose proof (spread_sort (oldestFirst Date_time) st2 healthRef) as H2.
  cbv zeta in H2.
  destruct (Store.spread st2 healthRef) as [copy2 st3] eqn:E2. cbn [fst snd] in H2.
  set (st4 := Store.sortAt (oldestFirst Date_time) st3 copy2) in *.
  destruct H2 as (Hc2 & Hl4 & Hf4 & Hv4).
  assert (Hframe : forall r, (r < List.length st)%nat -> nth_error st4 r = nth_error st r).
  { intros r Hr. rewrite Hf4 by lia. now apply Hf2. }
  assert (Hh4 : Store.healthAt st4 healthRef = d :: h).
  { unfold Store.healthAt. rewrite Hframe by exact Hh. exact Eh. }
  assert (Hs4 : Store.screenAt st4 screenRef = x :: s).
  { unfold Store.screenAt. rewrite Hframe by exact Hs. exact Es. }
  assert (Hh2 : Store.healthAt st2 healthRef = d :: h).
  { unfold Store.healthAt. rewrite Hf2 by exact Hh. exact Eh. }
  cbn [fst snd].
  split; [exact Hframe |]. split; [exact Hh4 |]. split; [exact Hs4 |].
  rewrite Hv4, Hh2. f_equal.
  unfold Store.healthAt at 1. rewrite Hf4 by lia.
  fold (Store.healthAt st2 copy1). rewrite Hv2, Eh. reflexivity.
Qed.

(** Sorting the array itself, without the copy, would be seen: the model
    distinguishes the two. *)
Example sort_without_copy_mutates :
  Store.healthAt
    (Store.sortAt (newestFirst Iso.time) [Store.HealthArr fiveThenRest] 0%nat) 0%nat
  = rev fiveThenRest.
Proof. reflexivity. Qed.

(* ================================================================== *)
(** * Further properties *)

(** ** Rankings of totals *)

Section TallyRanking.
Context {A : Type}.
Variable key : A -> string.
Variable val : A -> Z.

Let ranked (l : list A) : list (string * Z) :=
  Arr.sort byValueDesc (Obj.entries (Obj.tally key val l)).

Lemma ranked_perm (l : list A) : Permutation (ranked l) (Obj.tally key val l).
Proof. unfold ranked. rewrite sort_perm. apply entries_perm. Qed.

Lemma ranked_sorted (l : list A) :
  StronglySorted (fun x y => snd y <= snd x) (ranked l).
Proof.
  unfold ranked.
  eapply StronglySorted_weaken;
    [| apply (sort_key_sorted (fun e : string * Z => - snd e) byValueDesc)].
  - intros a b Hab. cbv beta in Hab. lia.
  - intros x y. unfold byValueDesc. lia.
Qed.

Lemma ranked_totals (l : list A) : totalsRanking key val l (ranked l).
Proof.
  pose proof (ranked_perm l) as Hp. unfold totalsRanking.
  split; [| split; [| split; [| split]]].
  - eapply Permutation_NoDup; [symmetry; apply Permutation_map; exact Hp |].
    apply tally_nodup.
  - intros k. rewrite <- (tally_has_key key val). split; apply Permutation_in;
      apply Permutation_map; [exact Hp | symmetry; exact Hp].
  - intros k v Hin. apply (Permutation_in _ Hp) in Hin. now apply tally_In in Hin.
  - apply ranked_sorted.
  - rewrite (sumBy_perm snd _ _ Hp). apply tally_sum.
Qed.

End TallyRanking.



(** X1. For non-empty inputs, [topCategories] lists every category of the
    screen-time records once, with the sum of its minutes, in descending
    order of minutes; the listed minutes add up to the minutes of all the
    records. *)
Theorem topCategories_ranking (Date_time : string -> Z)
    (h : list Health.t) (s : list Screen.t) :
  h <> [] -> s <> [] ->
  totalsRanking Screen.category Screen.minutes s
                (topCategories (screenTime (computeMetrics Date_time h s))).
Proof.
  intros Hh Hs. destruct h; [congruence |]. destruct s as [| r s]; [congruence |].
  unfold computeMetrics, metricsFrom. cbn [screenTime topCategories].
  apply (ranked_totals Screen.category Screen.minutes).
Qed.

Lemma topCategories_ranking_witness :
  fiveThenRest <> [] /\ mailRows <> [] /\
  totalsRanking Screen.category Screen.minutes mailRows
                (topCategories (screenTime (computeMetrics Iso.time fiveThenRest mailRows))).
Proof.
  assert (Hh : fiveThenRest <> []) by discriminate.
  assert (Hs : mailRows <> []) by discriminate.
  split; [exact Hh |]. split; [exact Hs |].
  apply (topCategories_ranking Iso.time fiveThenRest mailRows Hh Hs).
Defined.

(** X2. For non-empty inputs, [dailyTotals] lists every date of the
    screen-time records once, with the sum of that date's minutes, sorted
    by date string; there are as many entries as distinct dates and the
    totals add up to the minutes of all the records. *)
Theorem dailyTotals_per_date (Date_time : string -> Z)
    (h : list Health.t) (s : list Screen.t) :
  h <> [] -> s <> [] ->
  dailyTotalsOf s (dailyTotals (screenTime (computeMetrics Date_time h s))).
Proof.
  intros Hh Hs. destruct h; [congruence |]. destruct s as [| r s]; [congruence |].
  unfold computeMetrics, metricsFrom. cbn [screenTime dailyTotals].
  set (day := Obj.tally Screen.date Screen.minutes (r :: s)).
  assert (Hp : Permutation (Arr.sort byDateString (Obj.entries day)) day).
  { rewrite sort_perm. apply entries_perm. }
  unfold dailyTotalsOf. split; [| split; [| split; [| split; [| split]]]].
  - eapply Permutation_NoDup; [symmetry; apply Permutation_map; exact Hp |].
    apply tally_nodup.
  - intros d. rewrite <- (tally_has_key Screen.date Screen.minutes). split; apply Permutation_in;
      apply Permutation_map; [exact Hp | symmetry; exact Hp].
  - intros d v Hin. apply (Permutation_in _ Hp) in Hin. now apply tally_In in Hin.
  - apply (sort_Sorted byDateString). intros x y. apply localeCompare_total.
  - apply dailyTotals_sum.
  - apply dailyTotals_length.
Qed.

Lemma dailyTotals_per_date_witness :
  fiveThenRest <> [] /\ mailRows <> [] /\
  dailyTotalsOf mailRows
                (dailyTotals (screenTime (computeMetrics Iso.time fiveThenRest mailRows))).
Proof.
  assert (Hh : fiveThenRest <> []) by discriminate.
  assert (Hs : mailRows <> []) by discriminate.
  split; [exact Hh |]. split; [exact Hs |].
  apply (dailyTotals_per_date Iso.time fiveThenRest mailRows Hh Hs).
Defined.




(** ** The wellness scale and the weekly comparison *)

Lemma Math_round_bounds (x : Q) (lo hi : Z) :
  (inject_Z lo <= x <= inject_Z hi)%Q -> lo <= Math_round x <= hi.
Proof.
  intros [Hlo Hhi]. unfold Math_round. split.
  - rewrite <- (Qfloor_Z lo). apply Qfloor_resp_le. lra.
  - assert (E : hi = Qfloor (inject_Z hi + (1 # 2))).
    { assert (E : (inject_Z hi + (1 # 2) == inject_Z (2 * hi + 1) / inject_Z 2)%Q).
      { rewrite inject_Z_plus, inject_Z_mult. field. }
      rewrite (Qfloor_comp _ _ E), <- Zdiv_Qdiv.
      replace (2 * hi + 1) with (1 + hi * 2) by ring.
      rewrite Z.div_add by lia. reflexivity. }
    apply Z.le_trans with (Qfloor (inject_Z hi + (1 # 2))); [| lia].
    apply Qfloor_resp_le. lra.
Qed.

Lemma weighted_bounds (a b c d : Q) :
  (0 <= a <= 100)%Q -> (0 <= b <= 100)%Q -> (0 <= c <= 100)%Q -> (0 <= d <= 100)%Q ->
  0 <= weighted a b c d <= 100.
Proof.
  intros Ha Hb Hc Hd. unfold weighted. apply Math_round_bounds.
  change (inject_Z 0) with 0%Q. change (inject_Z 100) with 100%Q. lra.
Qed.

Lemma slice_incl {A : Type} (l : list A) (start : Z) (end_ : option Z) :
  incl (Arr.slice l start end_) l.
Proof.
  intros x Hx. unfold Arr.slice in Hx.
  match type of Hx with
  | In x (firstn ?n (skipn ?k l)) =>
      rewrite <- (firstn_skipn k l); apply in_or_app; right;
      rewrite <- (firstn_skipn n (skipn k l)); apply in_or_app; now left
  end.
Qed.

Lemma Forall_incl {A : Type} (P : A -> Prop) (l l' : list A) :
  incl l l' -> Forall P l' -> Forall P l.
Proof.
  intros Hincl Hall. rewrite Forall_forall in *. intros x Hx. apply Hall, Hincl, Hx.
Qed.

Lemma averageOrZero_nonneg {A : Type} (f : A -> Z) (l : list A) :
  0 <= Arr.sumBy f l -> 0 <= averageOrZero f l.
Proof.
  intros Hsum. destruct l as [| x l]; [reflexivity |].
  unfold averageOrZero, average. apply roundedMean_nonneg; [simpl; lia | exact Hsum].
Qed.

Lemma windowScreenTime_nonneg (dates : list string) (s : list Screen.t) :
  Forall (fun r => 0 <= Screen.minutes r) s -> 0 <= windowScreenTime dates s.
Proof.
  intros Hs. unfold windowScreenTime. apply averageOrZero_nonneg.
  rewrite (sumBy_perm snd _ _ (entries_perm _)), tally_sum.
  apply sumBy_nonneg. eapply Forall_incl; [apply incl_filter | exact Hs].
Qed.

(** X5. On inputs without negative steps, sleep, workout or screen-time
    minutes, the wellness score and the weekly score lie between 0 and
    100, so the weekly change lies between -100 and 100. *)
Theorem scores_within_bounds (Date_time : string -> Z)
    (h : list Health.t) (s : list Screen.t) :
  nonNegative h s -> scoresWithinBounds (computeMetrics Date_time h s).
Proof.
  intros [Hh Hs]. unfold scoresWithinBounds.
  destruct h as [| d h]; [cbn; lia |]. destruct s as [| r s]; [cbn; lia |].
  pose proof (averages_of Date_time (d :: h) (r :: s)) as Havg.
  destruct Havg as (_ & _ & _ & Edaily); try discriminate.
  unfold computeMetrics, metricsFrom in *.
  cbn [wellness screenTime score weeklyScore weeklyChange avgDaily] in *.
  set (week := Arr.slice (d :: h) (-7) None).
  assert (Hne : d :: h <> []) by discriminate.
  assert (Hpick : forall (f : Health.t -> Z) (l : list Health.t),
             incl l (d :: h) ->
             (forall x, (0 <= Health.steps x /\ 0 <= Health.sleep x /\ 0 <= Health.workout x)
                        -> 0 <= f x) ->
             0 <= Arr.sumBy f l).
  { intros f l Hincl Hf. apply sumBy_nonneg. eapply Forall_incl; [exact Hincl |].
    eapply Forall_impl; [| exact Hh]. exact Hf. }
  assert (Hall : forall f, (forall x, (0 <= Health.steps x /\ 0 <= Health.sleep x
                                       /\ 0 <= Health.workout x) -> 0 <= f x) ->
                 0 <= average f (d :: h) /\ 0 <= averageOrZero f week).
  { intros f Hf. split.
    - apply roundedMean_nonneg; [simpl; lia |]. apply Hpick; [apply incl_refl | exact Hf].
    - apply averageOrZero_nonneg. apply Hpick; [apply slice_incl | exact Hf]. }
  destruct (Hall Health.steps) as [H1 H1']; [tauto |].
  destruct (Hall Health.sleep) as [H2 H2']; [tauto |].
  destruct (Hall Health.workout) as [H3 H3']; [tauto |].
  assert (H4 : 0 <= average snd
                 (Arr.sort byDateString
                    (Obj.entries (Obj.tally Screen.date Screen.minutes (r :: s))))).
  { rewrite Edaily. apply roundedMean_nonneg; [apply unique_nonempty |].
    now apply sumBy_nonneg. }
  pose proof (windowScreenTime_nonneg (map Health.date week) (r :: s) Hs) as H4'.
  assert (Hscore := weighted_bounds _ _ _ _
            (subScore_bounds _ idealSteps H1 ltac:(discriminate))
            (subScore_bounds _ idealSleep H2 ltac:(discriminate))
            (subScore_bounds _ idealWorkout H3 ltac:(discriminate))
            (inverseSubScore_bounds _ H4)).
  assert (Hweek := weighted_bounds _ _ _ _
            (subScore_bounds _ idealSteps H1' ltac:(discriminate))
            (subScore_bounds _ idealSleep H2' ltac:(discriminate))
            (subScore_bounds _ idealWorkout H3' ltac:(discriminate))
            (inverseSubScore_bounds _ H4')).
  lia.
Qed.

Lemma scores_within_bounds_witness :
  nonNegative marathonDays idealRows /\
  scoresWithinBounds (computeMetrics Iso.time marathonDays idealRows).
Proof.
  assert (H : nonNegative marathonDays idealRows).
  { split; repeat constructor; simpl; lia. }
  split; [exact H |].
  apply (scores_within_bounds Iso.time marathonDays idealRows H).
Defined.

Lemma filter_all {A : Type} (p : A -> bool) (l : list A) :
  Forall (fun x => p x = true) l -> filter p l = l.
Proof.
  induction 1 as [| x l Hx _ IH]; [reflexivity |]. simpl. now rewrite Hx, IH.
Qed.

Lemma average_perm {A : Type} (f : A -> Z) (l l' : list A) :
  Permutation l l' -> average f l = average f l'.
Proof.
  intros Hp. unfold average. now rewrite (sumBy_perm f _ _ Hp), (Permutation_length Hp).
Qed.

Lemma window_whole (dates : list string) (s : list Screen.t) :
  s <> [] -> Forall (fun r => In (Screen.date r) dates) s ->
  windowScreenTime dates s
  = average snd (Arr.sort byDateString
                   (Obj.entries (Obj.tally Screen.date Screen.minutes s))).
Proof.
  intros Hs Hall. unfold windowScreenTime.
  rewrite filter_all.
  - rewrite (average_perm snd _ _ (sort_perm byDateString _)).
    destruct (Obj.entries (Obj.tally Screen.date Screen.minutes s)) as [| e l] eqn:E;
      [| reflexivity].
    exfalso. apply (f_equal (@List.length _)) in E.
    rewrite (Permutation_length (entries_perm _)) in E.
    rewrite <- (length_map fst), (tally_keys Screen.date Screen.minutes) in E.
    destruct s as [| r s]; [congruence |].
    pose proof (unique_nonempty (Screen.date r) (map Screen.date s)) as Hpos.
    cbn [map] in E. simpl in E. lia.
  - eapply Forall_impl; [| exact Hall]. intros r Hr. now apply includes_In.
Qed.

(** X6. With at most seven health records, and every screen-time record
    dated on one of their days, the last-seven-days window is the whole
    input: the weekly score equals the wellness score and the weekly
    change is 0. *)
Theorem short_history_no_weekly_change (Date_time : string -> Z)
    (h : list Health.t) (s : list Screen.t) :
  h <> [] -> s <> [] -> (List.length h <= 7)%nat -> datedWithin h s ->
  let w := wellness (computeMetrics Date_time h s) in
  weeklyScore w = score w /\ weeklyChange w = 0.
Proof.
  intros Hh Hs Hlen Hdated w. subst w.
  assert (Hweek : Arr.slice h (-7) None = h).
  { change (-7) with (- Z.of_nat 7). rewrite slice_trailing by lia.
    unfold lastN. now replace (List.length h - 7)%nat with 0%nat by lia. }
  destruct h as [| d h]; [congruence |]. destruct s as [| r s]; [congruence |].
  unfold computeMetrics, metricsFrom.
  cbn [wellness score weeklyScore weeklyChange].
  rewrite Hweek. rewrite (window_whole _ (r :: s)) by assumption.
  cbn [averageOrZero]. lia.
Qed.

Lemma short_history_no_weekly_change_witness :
  fiveThenRest <> [] /\ idealRows <> [] /\ (List.length fiveThenRest <= 7)%nat /\
  datedWithin fiveThenRest idealRows /\
  let w := wellness (computeMetrics Iso.time fiveThenRest idealRows) in
  weeklyScore w = score w /\ weeklyChange w = 0.
Proof.
  assert (Hh : fiveThenRest <> []) by discriminate.
  assert (Hs : idealRows <> []) by discriminate.
  assert (Hl : (List.length fiveThenRest <= 7)%nat) by (simpl; lia).
  assert (Hd : datedWithin fiveThenRest idealRows).
  { repeat (constructor; [simpl; auto 8 |]). constructor. }
  split; [exact Hh |]. split; [exact Hs |]. split; [exact Hl |]. split; [exact Hd |].
  apply (short_history_no_weekly_change Iso.time fiveThenRest idealRows Hh Hs Hl Hd).
Defined.

(** ** Streak counters and the order of the records *)

Lemma filter_length_perm {A : Type} (p : A -> bool) (l l' : list A) :
  Permutation l l' -> List.length (filter p l) = List.length (filter p l').
Proof.
  induction 1 as [| x l l' _ IH | x y l | l l' l'' _ IH1 _ IH2]; simpl.
  - reflexivity.
  - destruct (p x); simpl; now rewrite IH.
  - destruct (p x), (p y); reflexivity.
  - now rewrite IH1.
Qed.

Lemma filter_length_imp {A : Type} (p q : A -> bool) (l : list A) :
  (forall x, p x = true -> q x = true) ->
  (List.length (filter p l) <= List.length (filter q l))%nat.
Proof.
  intros Hpq. induction l as [| x l IH]; [reflexivity |].
  simpl. destruct (p x) eqn:Px.
  - rewrite (Hpq x Px). simpl. lia.
  - destruct (q x); simpl; lia.
Qed.

Lemma streakLoop_le_count (ok : Health.t -> bool) (l : list Health.t) :
  streakLoop ok 0 l <= Z.of_nat (List.length (filter ok l)).
Proof.
  induction l as [| d l IH]; [reflexivity |].
  simpl. destruct (ok d); [| lia].
  rewrite streakLoop_acc. cbn [List.length]. lia.
Qed.

Lemma bestLoop_le_count (ok : Health.t -> bool) (l : list Health.t) :
  bestLoop ok l <= Z.of_nat (List.length (filter ok l)).
Proof.
  destruct (bestLoop_longest ok l) as [(run & [(pre & post & E) Hall] & Hlen) _].
  rewrite <- Hlen, E, !filter_app, !length_app.
  rewrite (forallb_filter_id ok run Hall). lia.
Qed.

(** X7. The workout counters of one result are consistent: neither the
    current nor the best workout streak exceeds [workoutDays], which lies
    between 0 and the number of records, reported as [totalDays]. *)
Theorem workout_counters_consistent (Date_time : string -> Z)
    (h : list Health.t) (s : list Screen.t) :
  workoutCountersConsistent h (computeMetrics Date_time h s).
Proof.
  unfold workoutCountersConsistent.
  destruct h as [| d h]; [cbn; repeat split; try lia; congruence |].
  destruct s as [| r s]; [cbn; repeat split; try lia; discriminate |].
  unfold computeMetrics, metricsFrom.
  cbn [streaks health current best Habit.workout workoutDays totalDays].
  set (days := filter (fun x => 0 <? Health.workout x) (d :: h)).
  assert (Hcount : forall cmp,
             Z.of_nat (List.length (filter workoutOk (Arr.sort cmp (d :: h))))
             <= Z.of_nat (List.length days)).
  { intros cmp. rewrite (filter_length_perm workoutOk _ _ (sort_perm cmp (d :: h))).
    apply inj_le. apply filter_length_imp.
    intros x Hx. unfold workoutOk, streakWorkoutMin in Hx.
    apply Z.leb_le in Hx. apply Z.ltb_lt. lia. }
  split; [| split; [| split]].
  - eapply Z.le_trans; [apply streakLoop_le_count | apply Hcount].
  - eapply Z.le_trans; [apply bestLoop_le_count | apply Hcount].
  - split; [lia |]. apply inj_le. apply filter_length_le.
  - intros _ n E. now injection E as <-.
Qed.

Lemma sorted_copy_perm (key : Health.t -> Z) (cmp : Health.t -> Health.t -> Z)
    (h h' : list Health.t) :
  (forall x y, cmp x y <= 0 <-> key x <= key y) ->
  NoDup (map key h) -> Permutation h h' -> Arr.sort cmp h = Arr.sort cmp h'.
Proof.
  intros Hcmp Hnd Hp. apply (strict_sorted_unique key).
  - now apply sort_key_strict.
  - apply sort_key_strict; [exact Hcmp |].
    eapply Permutation_NoDup; [apply Permutation_map; exact Hp | exact Hnd].
  - rewrite !sort_perm. exact Hp.
Qed.

(** X8. Apart from the weekly comparison, which reads the last seven
    positions, the result does not depend on the order of the health
    records: for two arrangements of the same records with distinct dates,
    the averages, counts, screen-time figures, score, sub-scores and
    streaks are equal. *)
Theorem record_order_irrelevant (Date_time : string -> Z)
    (h h' : list Health.t) (s : list Screen.t) :
  Permutation h h' -> distinctDates Date_time h ->
  sameButWeekly (computeMetrics Date_time h s) (computeMetrics Date_time h' s).
Proof.
  intros Hp Hnd. unfold sameButWeekly.
  destruct h as [| d h].
  { apply Permutation_nil in Hp. subst h'. repeat split. }
  destruct h' as [| d' h'].
  { symmetry in Hp. apply Permutation_nil in Hp. discriminate. }
  destruct s as [| r s]; [repeat split |].
  unfold computeMetrics, metricsFrom.
  cbn [health screenTime streaks wellness score stepsScore sleepScore workoutScore
       screenTimeScore].
  assert (Havg : forall f, average f (d :: h) = average f (d' :: h'))
    by (intros f; now apply average_perm).
  assert (Hdesc : Arr.sort (newestFirst Date_time) (d :: h)
                  = Arr.sort (newestFirst Date_time) (d' :: h')).
  { apply (sorted_copy_perm (fun x => - Date_time (Health.date x))); [| | exact Hp].
    - intros x y. unfold newestFirst. lia.
    - unfold distinctDates in Hnd.
      rewrite <- (map_map (fun x => Date_time (Health.date x)) Z.opp).
      apply Finite.Injective_map_NoDup; [| exact Hnd]. intros a b Hab. lia. }
  assert (Hasc : Arr.sort (oldestFirst Date_time) (d :: h)
                 = Arr.sort (oldestFirst Date_time) (d' :: h')).
  { apply (sorted_copy_perm (fun x => Date_time (Health.date x))); [| exact Hnd | exact Hp].
    intros x y. unfold oldestFirst. lia. }
  rewrite !Havg, Hdesc, Hasc.
  rewrite (filter_length_perm _ _ _ Hp), (Permutation_length Hp).
  repeat split.
Qed.

Lemma record_order_irrelevant_witness :
  Permutation fiveThenRest fiveThenRestShuffled /\
  distinctDates Iso.time fiveThenRest /\
  sameButWeekly (computeMetrics Iso.time fiveThenRest idealRows)
                (computeMetrics Iso.time fiveThenRestShuffled idealRows).
Proof.
  assert (Hp : Permutation fiveThenRest fiveThenRestShuffled).
  { assert (E : Arr.sort (oldestFirst Iso.time) fiveThenRestShuffled = fiveThenRest)
      by reflexivity.
    rewrite <- E. apply sort_perm. }
  assert (Hd : distinctDates Iso.time fiveThenRest)
    by (apply chronological_distinct, fiveThenRest_chronological).
  split; [exact Hp |]. split; [exact Hd |].
  apply (record_order_irrelevant Iso.time fiveThenRest fiveThenRestShuffled idealRows Hp Hd).
Defined.

(** ** The most and the least used app *)


Lemma ranking_empty : computeAllAppTotals [] = [].
Proof. reflexivity. Qed.












(** ** Resolving the app a question names *)

Lemma unique_In (l : list string) (x : string) : In x (Arr.unique l) <-> In x l.
Proof.
  rewrite <- (map_id l) at 1.
  rewrite <- (tally_keys (fun k : string => k) (fun _ => 0) l).
  rewrite (tally_has_key (fun k : string => k) (fun _ => 0) l x).
  now rewrite map_id.
Qed.

Lemma matchVariation_sound (q : string) (apps : list string)
    (table : list (string * list string)) (a : string) :
  matchVariation q apps table = Some a -> In a apps /\ truthy a = true.
Proof.
  induction table as [| [key variations] table IH]; [discriminate |].
  cbn [matchVariation].
  destruct (Arr.some (fun v => Str.includes q v) variations); [| exact IH].
  destruct (Arr.find _ apps) as [m |] eqn:F; [| exact IH].
  destruct (truthy m) eqn:T; [| exact IH].
  intros E. injection E as <-. apply find_some in F. split; [apply F | exact T].
Qed.

Lemma matchVariation_no_apps (q : string) (table : list (string * list string)) :
  matchVariation q [] table = None.
Proof.
  induction table as [| [key variations] table IH]; [reflexivity |].
  cbn [matchVariation]. destruct (Arr.some _ variations); exact IH.
Qed.

Lemma extractAppName_names (question : string) (data : list Screen.t) (a : string) :
  extractAppName question data = Some a -> In a (map Screen.app data).
Proof.
  unfold extractAppName. destruct (Arr.find _ _) as [m |] eqn:F.
  - intros E. injection E as <-. apply find_some in F. now apply unique_In.
  - intros E. apply matchVariation_sound in E. now apply unique_In.
Qed.

(** X11. [extractAppName] never invents a name: what it returns is the
    app of some record.  On an empty array it returns [null].  When the
    lowercased question contains the lowercased name of an app of the
    data, it returns an app whose name the question contains, without
    consulting the aliases. *)
Theorem extractAppName_sound (question : string) (data : list Screen.t) :
  (forall a, extractAppName question data = Some a -> In a (map Screen.app data)) /\
  (data = [] -> extractAppName question data = None) /\
  (forall b, In b (map Screen.app data) ->
             Str.includes (Str.toLowerCase question) (Str.toLowerCase b) = true ->
             exists a, extractAppName question data = Some a /\
                       In a (map Screen.app data) /\
                       Str.includes (Str.toLowerCase question) (Str.toLowerCase a) = true).
Proof.
  split; [intros a; apply extractAppName_names |].
  unfold extractAppName. split.
  - intros ->. cbn [map Arr.unique Arr.unique_from Arr.find find].
    apply matchVariation_no_apps.
  - intros b Hb Hinc. destruct (Arr.find _ _) as [m |] eqn:F.
    + apply find_some in F as [Hm Hq]. exists m. split; [reflexivity |].
      split; [now apply unique_In | exact Hq].
    + exfalso. apply unique_In in Hb.
      pose proof (find_none _ _ F b Hb) as Hnone. cbv beta in Hnone. congruence.
Qed.





(** ** Trends and the exercise/sleep relationship *)

Lemma Math_round_nonneg (x : Q) : (0 <= x)%Q -> 0 <= Math_round x.
Proof.
  intros Hx. unfold Math_round.
  apply Z.le_trans with (Qfloor (1 # 2)); [discriminate |].
  apply Qfloor_resp_le. lra.
Qed.

Lemma Math_round_nonpos (x : Q) : (x <= 0)%Q -> Math_round x <= 0.
Proof.
  intros Hx. unfold Math_round.
  apply Z.le_trans with (Qfloor (1 # 2)); [| discriminate].
  apply Qfloor_resp_le. lra.
Qed.

Lemma percent_sign (c p : Z) :
  0 < p ->
  (0 <= c -> 0 <= Math_round (inject_Z c / inject_Z p * 100)) /\
  (c <= 0 -> Math_round (inject_Z c / inject_Z p * 100) <= 0).
Proof.
  intros Hp. split; intros Hc.
  - apply Math_round_nonneg. apply ratio_nonneg; lia.
  - apply Math_round_nonpos.
    assert (E : (inject_Z c / inject_Z p * 100 == - (inject_Z (- c) / inject_Z p * 100))%Q).
    { rewrite inject_Z_opp. field. unfold Qeq. simpl. lia. }
    rewrite E. pose proof (ratio_nonneg (- c) p ltac:(lia) ltac:(lia)). lra.
Qed.

(** X13. [computeTrendStats] returns [null] exactly when the array has at
    most 30 records; otherwise [dailyValues] holds the date and value of
    the last 30 records, in order. *)
Theorem computeTrendStats_null_iff (healthData : list Health.t) (metric : HealthField) :
  (computeTrendStats healthData metric = None <-> (List.length healthData <= 30)%nat) /\
  (forall t, computeTrendStats healthData metric = Some t ->
             dailyValues t = map (fun d => (Health.date d, field metric d))
                                 (lastN 30 healthData) /\
             List.length (dailyValues t) = 30%nat).
Proof.
  rewrite computeTrendStats_windows.
  assert (Hlen : List.length (lastN 30 (dropLastN 30 healthData))
                 = Nat.min 30 (List.length healthData - 30))
    by (now rewrite lastN_length, dropLastN_length).
  destruct (lastN 30 (dropLastN 30 healthData)) as [| d prev] eqn:E.
  - cbn [List.length] in Hlen. split; [split; [lia | reflexivity] | discriminate].
  - cbn [List.length] in Hlen. split; [split; [discriminate | lia] |].
    intros t Ht. injection Ht as <-. cbn [dailyValues].
    split; [reflexivity |]. rewrite length_map, lastN_length. lia.
Qed.

(** X14. The percentage of a trend report never contradicts its label:
    it is not negative for "increasing", not positive for "decreasing",
    and 0, with a change of 0, for "stable". *)
Theorem trend_percent_agrees (healthData : list Health.t) (metric : HealthField)
    (t : TrendStats) :
  computeTrendStats healthData metric = Some t ->
  (trend t = "increasing"%string -> 0 < change t /\ 0 <= percentChange t) /\
  (trend t = "decreasing"%string -> change t < 0 /\ percentChange t <= 0) /\
  (trend t = "stable"%string -> change t = 0 /\ percentChange t = 0).
Proof.
  rewrite computeTrendStats_windows.
  destruct (lastN 30 (dropLastN 30 healthData)) as [| d prev]; [discriminate |].
  intros Ht. injection Ht as <-.
  cbn [trend change percentChange].
  set (c := average (field metric) (lastN 30 healthData)
            - average (field metric) (d :: prev)).
  set (p := average (field metric) (d :: prev)).
  assert (Hpc : (0 <= c -> 0 <= (if 0 <? p
                                 then Math_round (inject_Z c / inject_Z p * 100) else 0))
                /\ (c <= 0 -> (if 0 <? p
                               then Math_round (inject_Z c / inject_Z p * 100) else 0) <= 0)).
  { destruct (Z.ltb_spec 0 p) as [Hp | Hp]; [now apply percent_sign | split; lia]. }
  unfold trendLabel.
  destruct (Z.ltb_spec 0 c) as [Hc | Hc]; [| destruct (Z.ltb_spec c 0) as [Hc' | Hc']].
  - split; [intros _; split; [lia | apply Hpc; lia] |].
    split; intros Hx; discriminate Hx.
  - split; [intros Hx; discriminate Hx |].
    split; [intros _; split; [lia | apply Hpc; lia] | intros Hx; discriminate Hx].
  - destruct Hpc as [H1 H2].
    split; [intros Hx; discriminate Hx |]. split; [intros Hx; discriminate Hx |].
    intros _. pose proof (H1 ltac:(lia)). pose proof (H2 ltac:(lia)). lia.
Qed.

Lemma trend_percent_agrees_witness :
  exists t, computeTrendStats trendExample F_steps = Some t /\
    (trend t = "increasing"%string -> 0 < change t /\ 0 <= percentChange t) /\
    (trend t = "decreasing"%string -> change t < 0 /\ percentChange t <= 0) /\
    (trend t = "stable"%string -> change t = 0 /\ percentChange t = 0).
Proof.
  destruct (computeTrendStats trendExample F_steps) as [t |] eqn:E; [| discriminate E].
  exists t. split; [reflexivity |].
  apply (trend_percent_agrees trendExample F_steps t E).
Defined.

(** X15. When no record has negative workout minutes, the exercise/sleep
    relationship splits the last 30 days (all of them, when fewer) into
    workout days and non-workout days: the two counts add up to the
    number of days considered, and a group without days reports an average
    of 0. *)
Theorem exerciseSleep_partition (healthData : list Health.t) :
  workoutNonNegative healthData ->
  let e := exerciseSleep healthData in
  es_workoutDays e + es_noWorkoutDays e
  = Z.of_nat (Nat.min 30 (List.length healthData)) /\
  (es_workoutDays e = 0 -> avgSleepWithWorkout e = 0) /\
  (es_noWorkoutDays e = 0 -> avgSleepNoWorkout e = 0) /\
  difference e = avgSleepWithWorkout e - avgSleepNoWorkout e.
Proof.
  intros Hnn e. subst e. unfold exerciseSleep.
  cbn [es_workoutDays es_noWorkoutDays avgSleepWithWorkout avgSleepNoWorkout difference].
  change (-30) with (- Z.of_nat 30). rewrite slice_trailing by lia.
  set (recent := lastN 30 healthData).
  assert (Hrec : Forall (fun d => 0 <= Health.workout d) recent).
  { eapply Forall_incl; [| exact Hnn]. intros x Hx. unfold recent, lastN in Hx.
    rewrite <- (firstn_skipn (List.length healthData - 30) healthData).
    apply in_or_app. now right. }
  assert (Erest : filter (fun d => Health.workout d =? 0) recent
                  = filter (fun d => negb (0 <? Health.workout d)) recent).
  { apply filter_ext_in. intros d Hd. rewrite Forall_forall in Hrec.
    specialize (Hrec d Hd). destruct (Z.eqb_spec (Health.workout d) 0) as [-> | Hne].
    - reflexivity.
    - symmetry. apply negb_false_iff. apply Z.ltb_lt. lia. }
  rewrite Erest. split; [| split; [| split]].
  - rewrite <- Nat2Z.inj_add, filter_length. unfold recent. now rewrite lastN_length.
  - intros Hz. destruct (filter (fun d => 0 <? Health.workout d) recent);
      [reflexivity | simpl in Hz; lia].
  - intros Hz. destruct (filter (fun d => negb (0 <? Health.workout d)) recent);
      [reflexivity | simpl in Hz; lia].
  - reflexivity.
Qed.

Lemma exerciseSleep_partition_witness :
  workoutNonNegative fiveThenRest /\
  let e := exerciseSleep fiveThenRest in
  es_workoutDays e + es_noWorkoutDays e
  = Z.of_nat (Nat.min 30 (List.length fiveThenRest)) /\
  (es_workoutDays e = 0 -> avgSleepWithWorkout e = 0) /\
  (es_noWorkoutDays e = 0 -> avgSleepNoWorkout e = 0) /\
  difference e = avgSleepWithWorkout e - avgSleepNoWorkout e.
Proof.
  assert (H : workoutNonNegative fiveThenRest) by (repeat constructor; simpl; lia).
  split; [exact H |]. apply (exerciseSleep_partition fiveThenRest H).
Defined.

(** ** The prompt statistics *)

Lemma computeMetrics_empty_shape (Date_time : string -> Z)
    (h : list Health.t) (s : list Screen.t) :
  h = [] \/ s = [] -> computeMetrics Date_time h s = zeroMetrics.
Proof.
  intros [-> | ->]; [reflexivity |]. now destruct h.
Qed.

(** X16. The daily average that [askQuestion] recomputes for its prompt
    equals [metrics.screenTime.avgDaily] when the metrics come from two
    non-empty arrays; on the all-zero shape, which [computeMetrics] returns
    when an array is empty, it is [NaN] (0 divided by 0), not 0. *)
Theorem statsAvgDaily_cases (Date_time : string -> Z)
    (h : list Health.t) (s : list Screen.t) :
  (h <> [] -> s <> [] ->
   statsAvgDaily (computeMetrics Date_time h s)
   = Finite (inject_Z (avgDaily (screenTime (computeMetrics Date_time h s))))) /\
  (h = [] \/ s = [] -> statsAvgDaily (computeMetrics Date_time h s) = NaN).
Proof.
  split.
  - intros Hh Hs. destruct h as [| d h]; [congruence |]. destruct s as [| r s]; [congruence |].
    unfold statsAvgDaily, computeMetrics, metricsFrom. cbn [screenTime dailyTotals avgDaily].
    set (totals := Arr.sort byDateString _).
    assert (Hlen : (0 < List.length totals)%nat).
    { unfold totals. rewrite dailyTotals_length. apply unique_nonempty. }
    unfold Number_div.
    destruct (Qeq_bool (inject_Z (Z.of_nat (List.length totals))) 0) eqn:E.
    + apply Qeq_bool_iff in E. unfold Qeq in E. simpl in E. lia.
    + reflexivity.
  - intros Hempty.
    rewrite (computeMetrics_empty_shape Date_time h s Hempty). reflexivity.
Qed.

(** X17. For a non-negative number of minutes, the hours and minutes that
    [formatSleep] prints recompose the input: 60 times the hours plus the
    minutes is the input, and the minutes printed lie between 0 and 59. *)
Theorem formatSleep_recomposes (minutes : Z) :
  0 <= minutes ->
  formatSleep minutes
  = (Number_toString (sleepHours minutes) ++ "h "
     ++ Number_toString (sleepRest minutes) ++ "m")%string /\
  60 * sleepHours minutes + sleepRest minutes = minutes /\
  0 <= sleepRest minutes < 60 /\ 0 <= sleepHours minutes.
Proof.
  intros Hm. unfold sleepHours, sleepRest. split; [reflexivity |].
  rewrite Z.rem_mod_nonneg by lia.
  pose proof (Z.div_mod minutes 60 ltac:(lia)).
  pose proof (Z.mod_pos_bound minutes 60 ltac:(lia)).
  pose proof (Z.div_pos minutes 60 Hm ltac:(lia)). lia.
Qed.

Lemma formatSleep_recomposes_witness :
  0 <= 437 /\ formatSleep 437 = "7h 17m"%string /\
  60 * sleepHours 437 + sleepRest 437 = 437.
Proof.
  split; [lia |].
  destruct (formatSleep_recomposes 437 ltac:(lia)) as (Hs & Hsum & _).
  split; [rewrite Hs; reflexivity | exact Hsum].
Defined.

(** With negative minutes the two parts no longer recompose. *)
Example formatSleep_negative : formatSleep (-30) = "-1h -30m"%string.
Proof. reflexivity. Qed.

(** ** The dashboard *)

Lemma lookupColumns_pairs (table : list (string * list string)) (a b : string) :
  NoDup (map fst table) ->
  In b (match lookupColumns table a with Some l => l | None => [] end) <->
  In (a, b) (flat_map (fun row => map (pair (fst row)) (snd row)) table).
Proof.
  induction table as [| [k vs] table IH]; intros Hnd; [reflexivity |].
  inversion Hnd as [| ? ? Hk Hnd']; subst.
  cbn [lookupColumns flat_map fst snd]. rewrite in_app_iff.
  destruct (String.eqb_spec a k) as [-> | Hne].
  - split.
    + intros Hb. left. now apply in_map.
    + intros [Hb | Hb].
      * apply in_map_iff in Hb as (b' & E & Hb). now injection E as <-.
      * exfalso. apply Hk. apply in_flat_map in Hb as ([k' vs'] & Hrow & Hb).
        apply in_map_iff in Hb as (b' & E & _). simpl in E. injection E as -> _.
        change k with (fst (k, vs')). now apply in_map.
  - rewrite (IH Hnd'). split; [now right |].
    intros [Hb | Hb]; [| exact Hb].
    apply in_map_iff in Hb as (b' & E & _). injection E as E _. congruence.
Qed.

Lemma combinable_cases (a b : string) :
  combinable a b <->
  In (a, b) (flat_map (fun row => map (pair (fst row)) (snd row)) metricRelationships).
Proof.
  unfold combinable, getAvailableColumns.
  rewrite <- lookupColumns_pairs
    by (unfold metricRelationships; cbn [map fst];
        repeat (constructor; [simpl; intuition discriminate |]); constructor).
  destruct (truthy a) eqn:T; [reflexivity |].
  unfold truthy in T. apply negb_false_iff, String.eqb_eq in T. subst a. reflexivity.
Qed.

(** X18. The table behind the custom chart is symmetric and never pairs
    a column with itself: a second column is offered after a first one
    exactly when the first would be offered after the second; the empty
    and unknown selections offer nothing. *)
Theorem getAvailableColumns_symmetric (a b : string) :
  (combinable a b <-> combinable b a) /\ ~ combinable a a /\
  getAvailableColumns EmptyString = [] /\
  (~ In a (map fst metricRelationships) -> getAvailableColumns a = []).
Proof.
  split; [| split; [| split]].
  - rewrite !combinable_cases. cbn [flat_map map fst snd app metricRelationships].
    split; intros H; simpl in H;
      repeat (destruct H as [H | H]; [injection H as <- <-; simpl; auto 20 |]);
      contradiction.
  - rewrite combinable_cases. cbn [flat_map map fst snd app metricRelationships].
    intros H; simpl in H;
      repeat (destruct H as [H | H]; [injection H as <- E; discriminate E |]);
      contradiction.
  - reflexivity.
  - intros Hnot. unfold getAvailableColumns. destruct (truthy a); [| reflexivity].
    destruct (lookupColumns metricRelationships a) as [cols |] eqn:E; [| reflexivity].
    exfalso. apply Hnot. unfold metricRelationships in *. cbn [lookupColumns] in E.
    cbn [map fst].
    repeat match type of E with
           | context [String.eqb a ?k] =>
               destruct (String.eqb_spec a k) as [-> | ?]; [simpl; auto 10 |]
           end.
    discriminate E.
Qed.

Lemma get_In (o : Obj.t) (k : string) (v : Z) : Obj.get o k = Some v -> In (k, v) o.
Proof.
  induction o as [| [k' v'] o IH]; simpl; [discriminate |].
  destruct (String.eqb_spec k k') as [-> | Hk].
  - intros E. injection E as ->. now left.
  - intros E. right. now apply IH.
Qed.

Lemma dailyTotals_per_date_facts (Date_time : string -> Z)
    (h : list Health.t) (s : list Screen.t) :
  h <> [] -> s <> [] ->
  Permutation (dailyTotals (screenTime (computeMetrics Date_time h s)))
              (Obj.tally Screen.date Screen.minutes s) /\
  (forall d, In d (map fst (dailyTotals (screenTime (computeMetrics Date_time h s))))
             -> In d (map Screen.date s)).
Proof.
  intros Hh Hs. destruct h; [congruence |]. destruct s as [| r s]; [congruence |].
  unfold computeMetrics, metricsFrom. cbn [screenTime dailyTotals].
  assert (Hp : Permutation
                 (Arr.sort byDateString
                    (Obj.entries (Obj.tally Screen.date Screen.minutes (r :: s))))
                 (Obj.tally Screen.date Screen.minutes (r :: s))).
  { rewrite sort_perm. apply entries_perm. }
  split; [exact Hp |].
  intros d Hd. apply (tally_has_key Screen.date Screen.minutes).
  eapply Permutation_in; [apply Permutation_map; exact Hp | exact Hd].
Qed.

(** X19. The screen-time column of the custom chart agrees with the
    metrics: for a day on which screen time was recorded, the value charted
    is the [total] that [dailyTotals] holds for that date, and for a day
    without records it is 0. *)
Theorem chart_screen_time_matches_totals (Date_time : string -> Z)
    (h : list Health.t) (s : list Screen.t) (d : Health.t) :
  h <> [] -> s <> [] ->
  let v := dayScreenTime s d in
  columnValue "screenTime" s d = Some v /\
  (In (Health.date d) (map Screen.date s) ->
   In (Health.date d, v) (dailyTotals (screenTime (computeMetrics Date_time h s)))) /\
  (~ In (Health.date d) (map Screen.date s) ->
   v = 0 /\
   ~ In (Health.date d)
        (map fst (dailyTotals (screenTime (computeMetrics Date_time h s))))).
Proof.
  intros Hh Hs v. subst v. split; [reflexivity |].
  destruct (dailyTotals_per_date_facts Date_time h s Hh Hs) as (Hperm & Hkeys).
  split.
  - intros Hin. apply (Permutation_in _ (Permutation_sym Hperm)).
    apply get_In. rewrite tally_get.
    apply (existsb_key Screen.date) in Hin. now rewrite Hin.
  - intros Hnot. split.
    + now apply (totalFor_absent Screen.date Screen.minutes).
    + intros Hin. apply Hnot. now apply Hkeys.
Qed.

Lemma chart_screen_time_matches_totals_witness :
  fiveThenRest <> [] /\ idealRows <> [] /\
  In ("2024-03-04"%string, 250)
     (dailyTotals (screenTime (computeMetrics Iso.time fiveThenRest idealRows))) /\
  columnValue "screenTime" idealRows (Health.mk "2024-03-04" 9000 400 410 20) = Some 250.
Proof.
  assert (Hh : fiveThenRest <> []) by discriminate.
  assert (Hs : idealRows <> []) by discriminate.
  split; [exact Hh |]. split; [exact Hs |].
  destruct (chart_screen_time_matches_totals Iso.time fiveThenRest idealRows
              (Health.mk "2024-03-04" 9000 400 410 20) Hh Hs) as (Hv & Hin & _).
  split; [apply Hin; simpl; auto | exact Hv].
Defined.



(** ** Notifications *)

Ltac split_conditions :=
  repeat match goal with
         | |- context [if ?c then _ else _] => destruct c eqn:?
         | |- context [match ?t with Some _ => _ | None => _ end] => destruct t eqn:?
         end.

Lemma Subsequence_In {A : Type} (l full : list A) (x : A) :
  Subsequence l full -> In x l -> In x full.
Proof.
  induction 1 as [| y l full _ IH | y l full _ IH]; intros Hin.
  - contradiction.
  - right. now apply IH.
  - destruct Hin as [-> | Hin]; [now left | right; now apply IH].
Qed.

Lemma Subsequence_NoDup {A : Type} (l full : list A) :
  Subsequence l full -> NoDup full -> NoDup l.
Proof.
  induction 1 as [| y l full Hs IH | y l full Hs IH]; intros Hnd.
  - constructor.
  - apply IH. now inversion Hnd.
  - inversion Hnd as [| ? ? Hy Hnd']; subst. constructor; [| now apply IH].
    intros Hin. apply Hy. now apply (Subsequence_In l full).
Qed.

(** X21. The notifications raised are some of the six known ones, each at
    most once and in the fixed order workout streak, sleep streak, steps
    goal, steps warning, sleep warning, streak reminder; without metrics or
    without health records none is raised. *)
Theorem notifications_in_order (metrics : option Metrics) (healthData : list Health.t) :
  Subsequence (generateNotificationIds metrics healthData) notificationOrder /\
  NoDup (generateNotificationIds metrics healthData) /\
  (metrics = None \/ healthData = [] -> generateNotificationIds metrics healthData = []).
Proof.
  assert (Hsub : Subsequence (generateNotificationIds metrics healthData) notificationOrder).
  { unfold generateNotificationIds, notificationOrder.
    destruct metrics as [m |]; [| repeat constructor].
    destruct healthData as [| d h]; [repeat constructor |].
    split_conditions; cbn [app];
      repeat first [apply Subsequence_keep | apply Subsequence_skip | apply Subsequence_nil]. }
  split; [exact Hsub |]. split.
  - apply (Subsequence_NoDup _ _ Hsub). unfold notificationOrder.
    repeat (constructor; [simpl; intuition discriminate |]). constructor.
  - intros [-> | ->]; [reflexivity |]. now destruct metrics.
Qed.

Lemma notification_conditions (m : Metrics) (healthData : list Health.t) :
  let ids := generateNotificationIds (Some m) healthData in
  let cur := Habit.workout (current (streaks m)) in
  (In "workout-streak"%string ids -> 3 <= cur) /\
  (In "streak-reminder"%string ids -> cur = 0 /\ 0 < Habit.workout (best (streaks m))) /\
  (In "steps-warning"%string ids \/ In "sleep-warning"%string ids ->
   (3 <= List.length healthData)%nat).
Proof.
  cbv zeta. unfold generateNotificationIds.
  destruct healthData as [| d h]; [cbn; intuition |].
  assert (Hlen : Z.of_nat (List.length (Arr.slice (d :: h) (-7) None))
                 <= Z.of_nat (List.length (d :: h))).
  { apply inj_le. change (-7) with (- Z.of_nat 7). rewrite slice_trailing by lia.
    rewrite lastN_length. lia. }
  split_conditions; cbn [app];
    repeat match goal with
           | H : andb _ _ = true |- _ => apply andb_prop in H as [? ?]
           | H : (_ <=? _) = true |- _ => apply Z.leb_le in H
           | H : (_ <? _) = true |- _ => apply Z.ltb_lt in H
           | H : (_ =? _) = true |- _ => apply Z.eqb_eq in H
           end;
    (split; [| split]); intros Hin; simpl in Hin;
    repeat match goal with
           | H : _ \/ _ |- _ => destruct H as [H | H]
           end;
    try discriminate; try contradiction; try lia.
Qed.

(** X22. The workout-streak congratulation (current streak of 3 or more)
    and the start-a-new-streak reminder (current streak of 0 after a
    positive best) are never raised together, and the two warnings need at
    least three health records. *)
Theorem notifications_exclusive (m : Metrics) (healthData : list Health.t) :
  let ids := generateNotificationIds (Some m) healthData in
  ~ (In "workout-streak"%string ids /\ In "streak-reminder"%string ids) /\
  ((List.length healthData < 3)%nat ->
   ~ In "steps-warning"%string ids /\ ~ In "sleep-warning"%string ids).
Proof.
  cbv zeta. destruct (notification_conditions m healthData) as (H1 & H2 & H3).
  split.
  - intros [Ha Hb]. specialize (H1 Ha). destruct (H2 Hb) as [Hz _]. lia.
  - intros Hshort. split; intros Hin; assert (3 <= List.length healthData)%nat
      by (apply H3; auto); lia.
Qed.

(** ** Loading *)

Lemma tryLoad_failed {A B : Type} (transform : list A -> list B) (f : Fetched A) :
  loadFailed f -> orEmpty (tryLoad transform f) = [].
Proof.
  intros Hf. destruct f as [| [|] [[| items] |]]; try reflexivity.
  exfalso. now apply (Hf items).
Qed.

(** X23. A loader never fails: when its fetch rejects, answers with a
    status that is not OK, or delivers a body that cannot be parsed or is
    not an array, it yields the empty array, and otherwise one record per
    element of the body.  When either of the two loads fails, the metrics
    that [fetchData] hands to the page are the all-zero shape. *)
Theorem failed_load_gives_zero_metrics (Date_time : string -> Z)
    (fh : Fetched RawHealth.t) (fs : Fetched RawScreen.t) :
  (loadFailed fh -> loadHealthData fh = []) /\
  (loadFailed fs -> loadScreenTimeData fs = []) /\
  (forall items, fh = Response true (Some (ArrayOf items)) ->
                 loadHealthData fh = transformHealthData items /\
                 List.length (loadHealthData fh) = List.length items) /\
  (forall items, fs = Response true (Some (ArrayOf items)) ->
                 loadScreenTimeData fs = transformScreenTimeData items /\
                 List.length (loadScreenTimeData fs) = List.length items) /\
  (loadFailed fh \/ loadFailed fs -> snd (fetchData Date_time fh fs) = zeroMetrics).
Proof.
  split; [apply tryLoad_failed |]. split; [apply tryLoad_failed |].
  split; [| split].
  - intros items ->. split; [reflexivity |]. apply length_map.
  - intros items ->. split; [reflexivity |]. apply length_map.
  - intros Hfail. unfold fetchData. cbn [snd].
    apply computeMetrics_empty_shape.
    destruct Hfail as [Hf | Hf]; [left | right]; now apply tryLoad_failed.
Qed.

Lemma failed_load_gives_zero_metrics_witness :
  loadFailed (Response false (Some (ArrayOf rawDays))) /\
  snd (fetchData Iso.time (Response false (Some (ArrayOf rawDays)))
                 (Response true (Some (ArrayOf []))))
  = zeroMetrics.
Proof.
  assert (H : loadFailed (Response false (Some (ArrayOf rawDays))))
    by (intros items E; discriminate E).
  split; [exact H |].
  destruct (failed_load_gives_zero_metrics
              Iso.time (Response false (Some (ArrayOf rawDays)))
              (Response true (Some (ArrayOf [])))) as (_ & _ & _ & _ & Hz).
  apply Hz. left. exact H.
Defined.

(** ** The figures of the steps chart *)

Lemma fold_max_spec (rest : list Z) (x : Z) :
  let m := fold_left Z.max rest x in
  In m (x :: rest) /\ forall y, In y (x :: rest) -> y <= m.
Proof.
  revert x. induction rest as [| z rest IH]; intros x; cbn [fold_left].
  - split; [now left |]. intros y [-> | []]. lia.
  - destruct (IH (Z.max x z)) as [Hin Hmax]. split.
    + destruct Hin as [E | Hin]; [| right; now right].
      rewrite <- E. destruct (Z.max_spec x z) as [[_ ->] | [_ ->]]; simpl; auto.
    + intros y [-> | [-> | Hy]].
      * specialize (Hmax (Z.max y z) (or_introl eq_refl)). lia.
      * specialize (Hmax (Z.max x y) (or_introl eq_refl)). lia.
      * apply Hmax. now right.
Qed.

Lemma fold_min_spec (rest : list Z) (x : Z) :
  let m := fold_left Z.min rest x in
  In m (x :: rest) /\ forall y, In y (x :: rest) -> m <= y.
Proof.
  revert x. induction rest as [| z rest IH]; intros x; cbn [fold_left].
  - split; [now left |]. intros y [-> | []]. lia.
  - destruct (IH (Z.min x z)) as [Hin Hmin]. split.
    + destruct Hin as [E | Hin]; [| right; now right].
      rewrite <- E. destruct (Z.min_spec x z) as [[_ ->] | [_ ->]]; simpl; auto.
    + intros y [-> | [-> | Hy]].
      * specialize (Hmin (Z.min y z) (or_introl eq_refl)). lia.
      * specialize (Hmin (Z.min x y) (or_introl eq_refl)). lia.
      * apply Hmin. now right.
Qed.

Lemma sumBy_between {A : Type} (f : A -> Z) (l : list A) (lo hi : Z) :
  (forall x, In x l -> lo <= f x <= hi) ->
  lo * Z.of_nat (List.length l) <= Arr.sumBy f l <= hi * Z.of_nat (List.length l).
Proof.
  induction l as [| x l IH]; intros Hb.
  - unfold Arr.sumBy. simpl. lia.
  - rewrite sumBy_cons. cbn [List.length].
    specialize (Hb x (or_introl eq_refl)) as Hx.
    assert (IH' := IH (fun y Hy => Hb y (or_intror Hy))). nia.
Qed.

Lemma roundedMean_between (total lo hi : Z) (count : nat) :
  (0 < count)%nat ->
  lo * Z.of_nat count <= total <= hi * Z.of_nat count ->
  lo <= roundedMean total count <= hi.
Proof.
  intros Hc [Hlo Hhi]. rewrite roundedMean_div by exact Hc.
  set (n := Z.of_nat count) in *. assert (0 < n) by (subst n; lia). split.
  - apply Z.div_le_lower_bound; nia.
  - apply Z.lt_succ_r. apply Z.div_lt_upper_bound; nia.
Qed.

(** X24. The figures sent with a question about the steps chart are
    ordered: over a non-empty health array the minimum, the rounded average
    and the maximum of the last 30 records are finite, minimum <= average
    <= maximum, and both extremes are steps of one of those records.  Over
    an empty array they are [Infinity], [NaN] and [-Infinity]. *)
Theorem stepsChartStats_ordered (formatDate : string -> string)
    (healthData : list Health.t) :
  (healthData <> [] -> stepsStatsOrdered healthData (stepsChartStats formatDate healthData)) /\
  (healthData = [] ->
   stepsChartStats formatDate healthData
   = {| chartAvgSteps := NaN; chartMaxSteps := NegInfinity;
        chartMinSteps := PosInfinity |}).
Proof.
  split; [| intros ->; reflexivity].
  intros Hne. unfold stepsStatsOrdered, stepsChartStats, stepsData.
  change (-30) with (- Z.of_nat 30). rewrite slice_trailing by lia.
  cbn [chartAvgSteps chartMaxSteps chartMinSteps].
  set (recent := lastN 30 healthData).
  assert (Hrec : recent <> []).
  { intros E. apply (f_equal (@List.length _)) in E. unfold recent in E.
    rewrite lastN_length in E. destruct healthData; [congruence | simpl in E; lia]. }
  rewrite map_map. cbn [snd]. rewrite (sumBy_map _ snd), length_map. cbn [snd].
  destruct recent as [| d rest] eqn:Er; [congruence |]. clear Hrec.
  cbn [map Math_max_spread Math_min_spread].
  destruct (fold_max_spec (map Health.steps rest) (Health.steps d)) as [Hmax_in Hmax].
  destruct (fold_min_spec (map Health.steps rest) (Health.steps d)) as [Hmin_in Hmin].
  cbv zeta in *.
  set (hi := fold_left Z.max (map Health.steps rest) (Health.steps d)) in *.
  set (lo := fold_left Z.min (map Health.steps rest) (Health.steps d)) in *.
  assert (Hbound : forall x, In x (d :: rest) -> lo <= Health.steps x <= hi).
  { intros x Hx. split; [apply Hmin | apply Hmax];
      change (Health.steps d :: map Health.steps rest) with (map Health.steps (d :: rest));
      now apply in_map. }
  exists (roundedMean (Arr.sumBy Health.steps (d :: rest)) (List.length (d :: rest))), hi, lo.
  split.
  { unfold Number_div.
    destruct (Qeq_bool (inject_Z (Z.of_nat (List.length (d :: rest)))) 0) eqn:E.
    - apply Qeq_bool_iff in E. unfold Qeq in E. simpl in E. lia.
    - reflexivity. }
  split; [reflexivity |]. split; [reflexivity |]. split.
  { apply roundedMean_between; [simpl; lia |]. now apply sumBy_between. }
  split; [exact Hmax_in |]. split; [exact Hmin_in | exact Hbound].
Qed.

(** ** The custom chart *)

Lemma Forall2_map_same {A B : Type} (P : A -> B -> Prop) (f : A -> B) (l : list A) :
  (forall x, In x l -> P x (f x)) -> Forall2 P l (map f l).
Proof.
  induction l as [| x l IH]; intros H; cbn [map]; constructor.
  - apply H. now left.
  - apply IH. intros y Hy. apply H. now right.
Qed.

(** X25. Every pair of columns the custom chart offers is charted
    completely: for a positive day range and a second column offered after
    the first, the chart has one point per record of the last [dayRange]
    health records (all of them, when fewer), in order, and each point
    carries the formatted date of its record and exactly the two selected
    columns with the values of that day. *)
Theorem customChartData_complete (formatDate : string -> string) (dayRange : Z)
    (a b : string) (healthData : list Health.t) (screenTimeData : list Screen.t) :
  0 < dayRange -> combinable a b ->
  Forall2 (chartedDay formatDate a b screenTimeData)
          (lastN (Z.to_nat dayRange) healthData)
          (customChartData formatDate dayRange a b healthData screenTimeData) /\
  List.length (customChartData formatDate dayRange a b healthData screenTimeData)
  = Nat.min (Z.to_nat dayRange) (List.length healthData).
Proof.
  intros Hr Hab.
  assert (E : customChartData formatDate dayRange a b healthData screenTimeData
              = map (fun d => (formatDate (Health.date d),
                               setColumn (setColumn Obj.empty a screenTimeData d)
                                         b screenTimeData d))
                    (lastN (Z.to_nat dayRange) healthData)
              /\ forall d, chartedDay formatDate a b screenTimeData d
                             (formatDate (Health.date d),
                              setColumn (setColumn Obj.empty a screenTimeData d)
                                        b screenTimeData d)).
  { apply combinable_cases in Hab.
    cbn [flat_map map fst snd app metricRelationships] in Hab. simpl in Hab.
    unfold customChartData.
    replace (- dayRange) with (- Z.of_nat (Z.to_nat dayRange)) by lia.
    rewrite slice_trailing by lia.
    repeat (destruct Hab as [Hab | Hab];
            [injection Hab as <- <-; split;
             [reflexivity
             | intros d; split; [reflexivity |];
               eexists; eexists; split; [reflexivity |]; split; reflexivity] |]).
    contradiction. }
  destruct E as [-> Hpt]. split.
  - apply Forall2_map_same. intros d _. apply Hpt.
  - now rewrite length_map, lastN_length.
Qed.

Lemma customChartData_complete_witness :
  0 < 7 /\ combinable "steps" "screenTime" /\
  List.length (customChartData (fun s => s) 7 "steps" "screenTime" fiveThenRest mailRows)
  = 6%nat.
Proof.
  assert (Hr : 0 < 7) by lia.
  assert (Hab : combinable "steps" "screenTime").
  { unfold combinable.
    change (In "screenTime"%string ["workout"; "sleep"; "energy"; "screenTime"]%string).
    right; right; right; left; reflexivity. }
  split; [exact Hr |]. split; [exact Hab |].
  exact (proj2 (customChartData_complete (fun s => s) 7 "steps" "screenTime"
                  fiveThenRest mailRows Hr Hab)).
Defined.

(** ** The per-date usage sent with a question *)


Section NestedFacts.











Let step (o : Obj.t) (x : Screen.t) : Obj.t :=
  Obj.bump o (Screen.app x) (Screen.minutes x).





End NestedFacts.






